(** * The sale engine of the butcher-shop application ([app.py], [new_sale])

    The POST branch of the [/sales/new] view is embedded as a function from
    the SQLite database and the posted form to a response and a database:

    - the three tables it touches are a record: [meat_items] is a finite map
      from the primary key [id] to the other columns, [sales] and
      [sale_items] are the rows in insertion order together with the
      [AUTOINCREMENT] counter that numbers them;
    - [REAL] columns and Python [float]s are IEEE 754 binary64 values, the
      kernel's primitive [float], with Python's comparisons and SQLite's
      subtraction as the primitive operations; a NaN bound to a statement
      or computed by one is stored by SQLite as NULL, which the [NOT NULL]
      constraints refuse ([sqlite3.IntegrityError]); a [REAL] column keeps
      a whole number as an integer, so that a negative zero written to it
      is read back as [0.0] ([sqlite_real]);
    - a text field of the form is represented by what [float()] and [int()]
      make of it ([None] where Python raises [ValueError]);
    - an exception that the view does not catch ends the request with the
      open transaction rolled back;
    - the view reads the stock while it validates and writes in one
      transaction afterwards; requests served at the same time are
      sequences of these two steps, interleaved.

    The rendering of templates, the initial [SELECT ... ORDER BY name] that
    only feeds the template, the login decorator and the exhaustion of
    64-bit row ids are outside the embedding.  Decimal literals such as
    [0.1] denote the nearest binary64 value, as they do in Python. *)

From Stdlib Require Import ZArith List String Floats.
From stdpp Require Import gmap.
Import ListNotations.

Set Warnings "-inexact-float".

Local Open Scope Z_scope.

(** ** Exceptions and the statements that may raise them *)

Inductive exn :=
| IndexError       (* quantities[idx] or unit_prices[idx] out of range *)
| ValueError       (* int(item_id) on text that is no integer *)
| OverflowError    (* Python int too large to convert to SQLite INTEGER *)
| IntegrityError.  (* NOT NULL constraint failed *)

Definition bind {A B : Type} (c : exn + A) (k : A -> exn + B) : exn + B :=
  match c with
  | inl e => inl e
  | inr a => k a
  end.

Notation "'try!' x <- c ; k" := (bind c (fun x => k))
  (at level 10, x name, c at level 100, k at level 200).

(** ** Tables *)

(** A row of [meat_items], without its key. *)
Record meat_item := {
  name : string;
  unit_label : string;          (* column [unit] *)
  price_per_unit : float;
  stock_quantity : float
}.

(** A row of [sales]. *)
Record sale := {
  sales_id : Z;                 (* column [id] *)
  sale_datetime : string;
  user_id : Z;
  customer_name : option string;
  total_amount : float
}.

(** A row of [sale_items]. *)
Record sale_item := {
  sale_items_id : Z;            (* column [id] *)
  sale_id : Z;
  meat_item_id : Z;
  quantity : float;
  unit_price : float;
  line_total : float
}.

Record database := {
  meat_items : gmap Z meat_item;
  sales : list sale;
  sales_seq : Z;                (* sqlite_sequence of [sales] *)
  sale_items : list sale_item;
  sale_items_seq : Z            (* sqlite_sequence of [sale_items] *)
}.

(** The integers SQLite can bind: signed 64-bit. *)
Definition sqlite_integer (n : Z) : bool :=
  (- 2 ^ 63 <=? n) && (n <? 2 ^ 63).

(** What a [REAL] column gives back for a number that was written to it.
    SQLite keeps a whole number of such a column as an integer: negative
    zero is read back as [0.0], and every other number as it was. *)
Definition sqlite_real (x : float) : float :=
  if (x =? 0)%float then 0%float else x.

(** [SET stock_quantity = ...] on one row. *)
Definition set_stock (row : meat_item) (s : float) : meat_item :=
  {| name := name row; unit_label := unit_label row;
     price_per_unit := price_per_unit row; stock_quantity := s |}.

(** [INSERT INTO sales (sale_datetime, user_id, customer_name, total_amount)
    VALUES (?, ?, ?, ?)], returning [cur.lastrowid].  The row holds the total
    as the [REAL] column gives it back. *)
Definition insert_sale (db : database) (now_iso : string) (uid : Z)
    (customer : option string) (total : float) : exn + (Z * database) :=
  if is_nan total then inl IntegrityError
  else
    let rowid := sales_seq db + 1 in
    inr (rowid,
         {| meat_items := meat_items db;
            sales := sales db ++ [ {| sales_id := rowid; sale_datetime := now_iso;
                                      user_id := uid; customer_name := customer;
                                      total_amount := sqlite_real total |} ];
            sales_seq := rowid;
            sale_items := sale_items db;
            sale_items_seq := sale_items_seq db |}).

(** [INSERT INTO sale_items (sale_id, meat_item_id, quantity, unit_price,
    line_total) VALUES (?, ?, ?, ?, ?)].  The row holds the three numbers as
    the [REAL] columns give them back. *)
Definition insert_sale_item (db : database) (sid item : Z)
    (qty price total : float) : exn + database :=
  if is_nan qty || is_nan price || is_nan total then inl IntegrityError
  else
    let rowid := sale_items_seq db + 1 in
    inr {| meat_items := meat_items db;
           sales := sales db;
           sales_seq := sales_seq db;
           sale_items := sale_items db ++ [ {| sale_items_id := rowid; sale_id := sid;
                                               meat_item_id := item;
                                               quantity := sqlite_real qty;
                                               unit_price := sqlite_real price;
                                               line_total := sqlite_real total |} ];
           sale_items_seq := rowid |}.

(** [UPDATE meat_items SET stock_quantity = stock_quantity - ? WHERE id = ?].
    No row with that id: nothing is updated.  The statement has no other
    condition; it fails only when the difference is NaN (stored as NULL).
    The row holds the difference as the [REAL] column gives it back. *)
Definition deduct_stock (db : database) (qty : float) (item : Z) : exn + database :=
  match meat_items db !! item with
  | None => inr db
  | Some row =>
      let s := (stock_quantity row - qty)%float in
      if is_nan s then inl IntegrityError
      else inr {| meat_items := <[item := set_stock row (sqlite_real s)]> (meat_items db);
                  sales := sales db;
                  sales_seq := sales_seq db;
                  sale_items := sale_items db;
                  sale_items_seq := sale_items_seq db |}
  end.

(** ** The posted form *)

(** A [quantity] or [unit_price] field as [float()] reads it. *)
Definition float_field := option float.

(** An [item_id] field: empty text, or text as [int()] reads it. *)
Inductive id_field :=
| IdEmpty
| IdText (n : option Z).

Record post_form := {
  form_customer_name : string;          (* after [.strip()] *)
  form_item_id : list id_field;         (* getlist("item_id") *)
  form_quantity : list float_field;     (* getlist("quantity") *)
  form_unit_price : list float_field    (* getlist("unit_price") *)
}.

(** ** Validation *)

Inductive sale_error :=
| AtLeastOneItem
| QuantityPriceRange
| QuantityPriceNumeric
| InvalidMeatItem
| NotEnoughStock (item_name : string).

(** The text that is flashed. *)
Definition message (e : sale_error) : string :=
  match e with
  | AtLeastOneItem => "At least one item is required."
  | QuantityPriceRange => "Quantity must be positive and price must be non-negative."
  | QuantityPriceNumeric => "Quantity and price must be numeric."
  | InvalidMeatItem => "Invalid meat item."
  | NotEnoughStock item_name =>
      String.append "Not enough stock for " (String.append item_name ".")
  end%string.

(** An element of the Python list [line_items]. *)
Record line_item := {
  li_meat_item_id : Z;
  li_name : string;
  li_quantity : float;
  li_unit_price : float;
  li_line_total : float
}.

(** Where the [for idx, item_id in enumerate(item_ids)] loop leaves the
    variables [error], [line_items] and [total_amount], or the exception
    that escaped from it. *)
Inductive loop_result :=
| LoopEnd (error : option sale_error) (line_items : list line_item) (total_amount : float)
| LoopRaise (e : exn).

Fixpoint check_lines (db : database) (quantities unit_prices : list float_field)
    (idx : nat) (item_ids : list id_field)
    (error : option sale_error) (line_items : list line_item) (total_amount : float)
    : loop_result :=
  match item_ids with
  | [] => LoopEnd error line_items total_amount
  | IdEmpty :: rest =>                               (* if not item_id: continue *)
      check_lines db quantities unit_prices (S idx) rest error line_items total_amount
  | IdText parsed :: rest =>
      match quantities !! idx with                   (* qty_str = quantities[idx] *)
      | None => LoopRaise IndexError
      | Some qty_str =>
      match unit_prices !! idx with                  (* price_str = unit_prices[idx] *)
      | None => LoopRaise IndexError
      | Some price_str =>
      match qty_str with                             (* qty_val = float(qty_str) *)
      | None => LoopEnd (Some QuantityPriceNumeric) line_items total_amount
      | Some qty_val =>
      match price_str with                           (* price_val = float(price_str) *)
      | None => LoopEnd (Some QuantityPriceNumeric) line_items total_amount
      | Some price_val =>
      if ((qty_val <=? 0) || (price_val <? 0))%float (* qty_val <= 0 or price_val < 0 *)
      then LoopEnd (Some QuantityPriceRange) line_items total_amount
      else
      match parsed with                              (* int(item_id), outside the try *)
      | None => LoopRaise ValueError
      | Some item =>
      if negb (sqlite_integer item) then LoopRaise OverflowError
      else
      match meat_items db !! item with               (* SELECT ... WHERE id = ? *)
      | None => LoopEnd (Some InvalidMeatItem) line_items total_amount
      | Some item_row =>
      if (stock_quantity item_row <? qty_val)%float  (* qty_val > stock_quantity *)
      then LoopEnd (Some (NotEnoughStock (name item_row))) line_items total_amount
      else
        let line_total := (qty_val * price_val)%float in
        check_lines db quantities unit_prices (S idx) rest error
          (line_items ++ [ {| li_meat_item_id := item; li_name := name item_row;
                              li_quantity := qty_val; li_unit_price := price_val;
                              li_line_total := line_total |} ])
          (total_amount + line_total)%float
      end end end end end end
  end.

(** ** Commit *)

(** The [for li in line_items] loop of the transaction. *)
Fixpoint persist_lines (db : database) (sid : Z) (line_items : list line_item)
    : exn + database :=
  match line_items with
  | [] => inr db
  | li :: rest =>
      try! db1 <- insert_sale_item db sid (li_meat_item_id li) (li_quantity li)
                    (li_unit_price li) (li_line_total li);
      try! db2 <- deduct_stock db1 (li_quantity li) (li_meat_item_id li);
      persist_lines db2 sid rest
  end.

(** [customer_name or None]. *)
Definition or_None (s : string) : option string :=
  if String.eqb s "" then None else Some s.

(** From [conn = get_db()] to [conn.commit()]: the database that is
    committed and the new sale's id, or the exception that left the
    transaction uncommitted. *)
Definition persist (db : database) (now_iso : string) (uid : Z)
    (customer : string) (line_items : list line_item) (total : float)
    : exn + (Z * database) :=
  try! ins <- insert_sale db now_iso uid (or_None customer) total;
  try! db' <- persist_lines (snd ins) (fst ins) line_items;
  inr (fst ins, db').

(** ** The view *)

Inductive response :=
| Redirect (sid : Z)            (* to the receipt of the recorded sale *)
| Flash (error : sale_error)    (* the form again, with the error *)
| Raised (e : exn).             (* unhandled: the request fails *)

(** The initial value of [error]. *)
Definition error0 (item_ids : list id_field) : option sale_error :=
  match item_ids with
  | [] => Some AtLeastOneItem
  | _ :: _ => None
  end.

(** The loop, from the state the view enters it in. *)
Definition validate (db : database) (form : post_form) : loop_result :=
  check_lines db (form_quantity form) (form_unit_price form) 0
    (form_item_id form) (error0 (form_item_id form)) [] 0%float.

(** The transaction and the answer that follows it. *)
Definition commit (db : database) (now_iso : string) (uid : Z)
    (customer : string) (line_items : list line_item) (total : float)
    : response * database :=
  match persist db now_iso uid customer line_items total with
  | inl e => (Raised e, db)
  | inr (sid, db') => (Redirect sid, db')
  end.

Definition new_sale (db : database) (now_iso : string) (uid : Z) (form : post_form)
    : response * database :=
  match validate db form with
  | LoopRaise e => (Raised e, db)
  | LoopEnd (Some error) _ _ => (Flash error, db)
  | LoopEnd None line_items total =>
      commit db now_iso uid (form_customer_name form) line_items total
  end.

(** ** Two requests at once

    The view reads the stock through connections of their own while it
    validates, and opens the writing transaction only afterwards.  SQLite
    lets one transaction write at a time, so two requests served together
    interleave at this grain: each request is a validation step followed by
    a commit step, and the steps of the two requests come in any order. *)

Inductive session :=
| Posted (now_iso : string) (uid : Z) (form : post_form)
| Checked (now_iso : string) (uid : Z) (customer : string)
    (line_items : list line_item) (total : float)
| Answered (r : response).

Definition advance (db : database) (s : session) : session * database :=
  match s with
  | Posted now_iso uid form =>
      match validate db form with
      | LoopRaise e => (Answered (Raised e), db)
      | LoopEnd (Some error) _ _ => (Answered (Flash error), db)
      | LoopEnd None line_items total =>
          (Checked now_iso uid (form_customer_name form) line_items total, db)
      end
  | Checked now_iso uid customer line_items total =>
      let (r, db') := commit db now_iso uid customer line_items total in
      (Answered r, db')
  | Answered r => (s, db)
  end.

Inductive client := First | Second.

Record world := {
  store : database;
  first : session;
  second : session
}.

Definition turn (w : world) (c : client) : world :=
  match c with
  | First =>
      let (s, db) := advance (store w) (first w) in
      {| store := db; first := s; second := second w |}
  | Second =>
      let (s, db) := advance (store w) (second w) in
      {| store := db; first := first w; second := s |}
  end.

Definition run (w : world) (schedule : list client) : world :=
  fold_left turn schedule w.

Definition other (c : client) : client :=
  match c with
  | First => Second
  | Second => First
  end.

Definition session_of (w : world) (c : client) : session :=
  match c with
  | First => first w
  | Second => second w
  end.

(** One request served from its validation to its answer, then the other. *)
Definition one_after_the_other (c : client) : list client :=
  [c; c; other c; other c].

(** Both validations, then both commits. *)
Definition interleaved (c : client) : list client :=
  [c; other c; c; other c].

(** 1 for a request that was answered with the receipt of its sale. *)
Definition recorded (s : session) : nat :=
  match s with
  | Answered (Redirect _) => 1%nat
  | _ => 0%nat
  end.

(** ** What the theorems are stated with *)

(** The running total of the view: [0.0], then each term added in order. *)
Definition fsum (terms : list float) : float :=
  fold_left PrimFloat.add terms 0%float.

(** A stock after one [UPDATE ... - ?] per quantity, in order. *)
Definition deduct_all (stock : float) (quantities : list float) : float :=
  fold_left PrimFloat.sub quantities stock.

(** The same, each difference as the [REAL] column holds it. *)
Definition stored_deduct_all (stock : float) (quantities : list float) : float :=
  fold_left (fun s q => sqlite_real (s - q)%float) quantities stock.

(** The quantities of the rows that reference an item, in order. *)
Definition quantities_of (item : Z) (rows : list sale_item) : list float :=
  map quantity (List.filter (fun r => meat_item_id r =? item) rows).

(** The same of the Python list [line_items]. *)
Definition ordered (item : Z) (line_items : list line_item) : list float :=
  map li_quantity (List.filter (fun li => li_meat_item_id li =? item) line_items).

(** The lines a form asks for: item, quantity and price of each line whose
    [item_id] is filled in, in order. *)
Fixpoint entered (quantities unit_prices : list float_field) (idx : nat)
    (item_ids : list id_field) : list (Z * float * float) :=
  match item_ids with
  | [] => []
  | IdEmpty :: rest => entered quantities unit_prices (S idx) rest
  | IdText parsed :: rest =>
      match parsed, quantities !! idx, unit_prices !! idx with
      | Some item, Some (Some qty), Some (Some price) =>
          (item, qty, price) :: entered quantities unit_prices (S idx) rest
      | _, _, _ => entered quantities unit_prices (S idx) rest
      end
  end.

Definition entered_lines (form : post_form) : list (Z * float * float) :=
  entered (form_quantity form) (form_unit_price form) 0 (form_item_id form).

(** The quantities a list of lines asks of an item, in order. *)
Definition asked_in (item : Z) (lines : list (Z * float * float)) : list float :=
  map (fun l => snd (fst l)) (List.filter (fun l => fst (fst l) =? item) lines).

Definition asked (item : Z) (form : post_form) : list float :=
  asked_in item (entered_lines form).

(** A line as its row of [sale_items] holds it: the price as the [REAL]
    column gives it back. *)
Definition stored_line (l : Z * float * float) : Z * float * float :=
  (fst (fst l), snd (fst l), sqlite_real (snd l)).

(** The product that a line asks to be paid. *)
Definition line_product (l : Z * float * float) : float :=
  (snd (fst l) * snd l)%float.

(** A line item as a line: item, quantity and price. *)
Definition line_of (li : line_item) : Z * float * float :=
  (li_meat_item_id li, li_quantity li, li_unit_price li).

(** The same of a row of [sale_items]. *)
Definition row_line (r : sale_item) : Z * float * float :=
  (meat_item_id r, quantity r, unit_price r).

(** What a row's [line_total] is to be. *)
Definition row_product (r : sale_item) : float :=
  (quantity r * unit_price r)%float.

(** What holds of a line item of a sale that is recorded: the loop saw a
    quantity and a price that the constraints then found to be numbers,
    and multiplied them. *)
Definition sound_line (li : line_item) : Prop :=
  (0 <? li_quantity li)%float = true /\
  (0 <=? li_unit_price li)%float = true /\
  li_line_total li = (li_quantity li * li_unit_price li)%float.

(** The rows of [sale_items] that a list of line items becomes, numbered
    after [seq]. *)
Fixpoint rows_of (seq sid : Z) (line_items : list line_item) : list sale_item :=
  match line_items with
  | [] => []
  | li :: rest =>
      {| sale_items_id := seq + 1; sale_id := sid;
         meat_item_id := li_meat_item_id li;
         quantity := sqlite_real (li_quantity li);
         unit_price := sqlite_real (li_unit_price li);
         line_total := sqlite_real (li_line_total li) |}
      :: rows_of (seq + 1) sid rest
  end.

(** ** Sample data *)

Definition beef (stock : float) : meat_item :=
  {| name := "Beef"; unit_label := "kg"; price_per_unit := 12.5%float;
     stock_quantity := stock |}.

Definition shop (stock : float) : database :=
  {| meat_items := {[ 1 := beef stock ]}; sales := []; sales_seq := 0;
     sale_items := []; sale_items_seq := 0 |}.

Definition one_line (item : Z) (qty price : float) : post_form :=
  {| form_customer_name := ""; form_item_id := [IdText (Some item)];
     form_quantity := [Some qty]; form_unit_price := [Some price] |}.

(** The same from a named customer. *)
Definition line_form (customer : string) (item : Z) (qty price : float) : post_form :=
  {| form_customer_name := customer; form_item_id := [IdText (Some item)];
     form_quantity := [Some qty]; form_unit_price := [Some price] |}.

Definition two_lines (item : Z) (qty1 qty2 price : float) : post_form :=
  {| form_customer_name := "";
     form_item_id := [IdText (Some item); IdText (Some item)];
     form_quantity := [Some qty1; Some qty2];
     form_unit_price := [Some price; Some price] |}.

Definition stock_of (db : database) (item : Z) : option float :=
  stock_quantity <$> meat_items db !! item.

Definition noon : string := "2024-05-01T12:00:00".

(** Five kilograms of beef out of fifty, at 12.5. *)
Definition sold_5_of_50 : response * database :=
  new_sale (shop 50) noon 7 (one_line 1 5 12.5).

(** Fifty kilograms asked of forty-five. *)
Definition asked_50_of_45 : response * database :=
  new_sale (shop 45) noon 7 (one_line 1 50 12.5).

(** Two lines of three kilograms each, of five. *)
Definition sold_3_and_3_of_5 : response * database :=
  new_sale (shop 5) noon 7 (two_lines 1 3 3 12.5).

(** Two lines of 0.1 and 0.2 kilograms, of fifty (the binary64 values
    nearest to 0.1 and 0.2, as [float()] reads these texts). *)
Definition sold_tenth_and_fifth_of_50 : response * database :=
  new_sale (shop 50) noon 7 (two_lines 1 0.1 0.2 12.5).

(** A form with a customer and no line at all. *)
Definition empty_form : post_form :=
  {| form_customer_name := "Asha"; form_item_id := [];
     form_quantity := []; form_unit_price := [] |}.

(** A form with two lines left empty. *)
Definition blank_form : post_form :=
  {| form_customer_name := "Asha"; form_item_id := [IdEmpty; IdEmpty];
     form_quantity := [None; None]; form_unit_price := [None; None] |}.

(** A request for 50 kilograms, validated while 50 were in stock. *)
Definition checked_50_of_50 : session :=
  fst (advance (shop 50) (Posted noon 7 (one_line 1 50 12.5))).

(** A cashier asking fifty kilograms and another asking five, of fifty. *)
Definition fifty_and_five : world :=
  {| store := shop 50;
     first := Posted noon 7 (one_line 1 50 12.5);
     second := Posted noon 8 (one_line 1 5 12.5) |}.

(** Five kilograms, then fifty, of forty-five. *)
Definition asked_5_and_50_of_45 : post_form := two_lines 1 5 50 12.5.

(** Two cashiers, each asking [qty] kilograms of item 1 for a customer of
    their own, at prices of their own. *)
Definition two_customers (stock qty : float) : world :=
  {| store := shop stock;
     first := Posted noon 7 (line_form "Asha" 1 qty 12.5);
     second := Posted noon 8 (line_form "Baraka" 1 qty 13) |}.

(** Two cashiers, each asking the last [qty] kilograms of item 1. *)
Definition two_cashiers (stock qty : float) : world :=
  {| store := shop stock;
     first := Posted noon 7 (one_line 1 qty 12.5);
     second := Posted noon 8 (one_line 1 qty 12.5) |}.

(** The states that a request of one line for [qty] of [item], an item of
    name [item_name], goes through. *)
Definition one_line_session (item_name : string) (now_iso : string) (uid : Z)
    (customer : string) (item : Z) (qty price : float) (s : session) : Prop :=
  s = Posted now_iso uid (line_form customer item qty price) \/
  s = Checked now_iso uid customer
        [ {| li_meat_item_id := item; li_name := item_name; li_quantity := qty;
             li_unit_price := price; li_line_total := (qty * price)%float |} ]
        (0 + qty * price)%float \/
  (exists sid, s = Answered (Redirect sid)) \/
  s = Answered (Flash (NotEnoughStock item_name)).

(** * The rest of the application

    The views around the sale engine: the catalog screens, the receipt, the
    price endpoint, the login and the seeding at start-up.  The database
    gains what these touch: the [AUTOINCREMENT] counter of [meat_items] and
    the table [users].  A new row of [meat_items] or [users] is numbered one
    above the larger of the counter and the largest id in the table.  The
    hashing of passwords is werkzeug's and is a parameter.  The dashboard,
    the reports and the inventory list (sorting, dates and SQLite's [SUM])
    are outside the embedding. *)

(** ** Users and the session cookie *)

Inductive role := Admin | Cashier.   (* CHECK(role IN ('admin', 'cashier')) *)

(** A row of [users]. *)
Record user := {
  users_id : Z;                 (* column [id] *)
  username : string;
  password_hash : string;
  user_role : role              (* column [role] *)
}.

Record site := {
  site_db : database;
  meat_items_seq : Z;           (* sqlite_sequence of [meat_items] *)
  users : list user;
  users_seq : Z                 (* sqlite_sequence of [users] *)
}.

(** Flask's [session]. *)
Record cookie := {
  cookie_user_id : option Z;    (* session["user_id"] *)
  cookie_role : option role     (* session["role"] *)
}.

(** [session.clear()]. *)
Definition cleared : cookie := {| cookie_user_id := None; cookie_role := None |}.

Definition get_user_by_id (us : list user) (uid : Z) : option user :=
  List.find (fun u => users_id u =? uid) us.

Definition get_user_by_username (us : list user) (uname : string) : option user :=
  List.find (fun u => String.eqb (username u) uname) us.

(** [g.user] as [load_logged_in_user] sets it before each request. *)
Definition load_logged_in_user (st : site) (c : cookie) : option user :=
  match cookie_user_id c with
  | None => None
  | Some uid => get_user_by_id (users st) uid
  end.

(** ** The decorators *)

Inductive guarded (A : Type) :=
| ToLogin                       (* redirect(url_for("login")) *)
| NoPermission                  (* flash, redirect(url_for("dashboard")) *)
| Served (a : A).

Arguments ToLogin {A}.
Arguments NoPermission {A}.
Arguments Served {A} a.

(** A view, as a function of [g.user]. *)
Definition view (A : Type) : Type := option user -> guarded A.

Definition login_required {A : Type} (v : view A) : view A :=
  fun g_user =>
    match g_user with
    | None => ToLogin
    | Some _ => v g_user
    end.

Definition admin_required {A : Type} (v : view A) : view A :=
  fun g_user =>
    match g_user with
    | None => ToLogin
    | Some u =>
        match user_role u with
        | Admin => v g_user
        | Cashier => NoPermission
        end
    end.

(** What a decorated view leaves of the database: the view's own result
    when it is served, the database as it was when it is not. *)
Definition settle {R : Type} (st : site) (g : guarded (R * site)) : guarded R * site :=
  match g with
  | ToLogin => (ToLogin, st)
  | NoPermission => (NoPermission, st)
  | Served (r, st') => (Served r, st')
  end.

Inductive http_method := GET | POST.

(** ** The catalog screens *)

Definition with_meat_items (st : site) (items : gmap Z meat_item) : site :=
  {| site_db := {| meat_items := items;
                   sales := sales (site_db st);
                   sales_seq := sales_seq (site_db st);
                   sale_items := sale_items (site_db st);
                   sale_items_seq := sale_items_seq (site_db st) |};
     meat_items_seq := meat_items_seq st;
     users := users st;
     users_seq := users_seq st |}.

(** The largest id of a table, 0 for an empty one. *)
Definition max_key (items : gmap Z meat_item) : Z :=
  foldr Z.max 0 (map fst (map_to_list items)).

(** The fields of [inventory_form.html] as the view reads them. *)
Record item_form := {
  item_name : string;           (* after [.strip()] *)
  item_unit : string;           (* after [.strip()], before [or "kg"] *)
  item_price : float_field;     (* float(price_per_unit) *)
  item_stock : float_field      (* float(stock_quantity) *)
}.

Inductive item_error :=
| PriceQuantityNegative
| PriceQuantityNumeric
| MeatNameRequired.

Definition item_message (e : item_error) : string :=
  match e with
  | PriceQuantityNegative => "Price and quantity must be non-negative."
  | PriceQuantityNumeric => "Price and quantity must be numeric."
  | MeatNameRequired => "Meat name is required."
  end%string.

(** The value of [error] before [if error:]. *)
Definition item_error_of (form : item_form) : option item_error :=
  let error :=
    match item_price form, item_stock form with
    | Some price_val, Some qty_val =>
        if ((price_val <? 0) || (qty_val <? 0))%float
        then Some PriceQuantityNegative else None
    | _, _ => Some PriceQuantityNumeric
    end in
  if String.eqb (item_name form) "" then Some MeatNameRequired else error.

(** [unit = ... .strip() or "kg"]. *)
Definition or_kg (s : string) : string :=
  if String.eqb s "" then "kg"%string else s.

(** A row as the table holds it: the two [REAL] columns as they are read
    back. *)
Definition stored_item (row : meat_item) : meat_item :=
  {| name := name row; unit_label := unit_label row;
     price_per_unit := sqlite_real (price_per_unit row);
     stock_quantity := sqlite_real (stock_quantity row) |}.

(** [INSERT INTO meat_items (name, unit, price_per_unit, stock_quantity)
    VALUES (?, ?, ?, ?)]; the table holds the row as [stored_item] has it. *)
Definition insert_meat_item (st : site) (row : meat_item) : exn + site :=
  if is_nan (price_per_unit row) || is_nan (stock_quantity row)
  then inl IntegrityError
  else
    let rowid := Z.max (meat_items_seq st) (max_key (meat_items (site_db st))) + 1 in
    inr {| site_db := site_db (with_meat_items st
                                 (<[rowid := stored_item row]> (meat_items (site_db st))));
           meat_items_seq := rowid;
           users := users st;
           users_seq := users_seq st |}.

(** [UPDATE meat_items SET name = ?, unit = ?, price_per_unit = ?,
    stock_quantity = ? WHERE id = ?], on a row that exists; the table holds
    the row as [stored_item] has it. *)
Definition update_meat_item (st : site) (item : Z) (row : meat_item) : exn + site :=
  if is_nan (price_per_unit row) || is_nan (stock_quantity row)
  then inl IntegrityError
  else inr (with_meat_items st (<[item := stored_item row]> (meat_items (site_db st)))).

Inductive inventory_response :=
| InvForm                        (* the form, on GET *)
| InvFlash (e : item_error)      (* the form again, with the error *)
| InvSaved                       (* "Meat item added." or "Meat item updated." *)
| InvNotFound                    (* "Item not found." *)
| InvDeleted (meat_name : string)  (* f"Item '{name}' deleted." *)
| InvRaised (e : exn).

(** The row the form describes, when [error] is unset. *)
Definition item_of_form (form : item_form) : option meat_item :=
  match item_error_of form, item_price form, item_stock form with
  | None, Some price_val, Some qty_val =>
      Some {| name := item_name form; unit_label := or_kg (item_unit form);
              price_per_unit := price_val; stock_quantity := qty_val |}
  | _, _, _ => None
  end.

Definition inventory_add_body (st : site) (method : http_method) (form : item_form)
    : inventory_response * site :=
  match method with
  | GET => (InvForm, st)
  | POST =>
      match item_error_of form with
      | Some e => (InvFlash e, st)
      | None =>
          match item_of_form form with
          | None => (InvFlash PriceQuantityNumeric, st)
          | Some row =>
              match insert_meat_item st row with
              | inl e => (InvRaised e, st)
              | inr st' => (InvSaved, st')
              end
          end
      end
  end.

Definition inventory_edit_body (st : site) (method : http_method) (item : Z)
    (form : item_form) : inventory_response * site :=
  if negb (sqlite_integer item) then (InvRaised OverflowError, st)
  else
    match meat_items (site_db st) !! item with
    | None => (InvNotFound, st)
    | Some _ =>
        match method with
        | GET => (InvForm, st)
        | POST =>
            match item_error_of form with
            | Some e => (InvFlash e, st)
            | None =>
                match item_of_form form with
                | None => (InvFlash PriceQuantityNumeric, st)
                | Some row =>
                    match update_meat_item st item row with
                    | inl e => (InvRaised e, st)
                    | inr st' => (InvSaved, st')
                    end
                end
            end
        end
    end.

Definition inventory_delete_body (st : site) (item : Z) : inventory_response * site :=
  if negb (sqlite_integer item) then (InvRaised OverflowError, st)
  else
    match meat_items (site_db st) !! item with
    | None => (InvNotFound, st)
    | Some row =>
        (InvDeleted (name row),
         with_meat_items st (delete item (meat_items (site_db st))))
    end.

(** The three routes, decorated as in [register_routes]. *)
Definition inventory_add (st : site) (c : cookie) (method : http_method)
    (form : item_form) : guarded inventory_response * site :=
  settle st
    (login_required
       (admin_required (fun _ => Served (inventory_add_body st method form)))
       (load_logged_in_user st c)).

Definition inventory_edit (st : site) (c : cookie) (method : http_method)
    (item : Z) (form : item_form) : guarded inventory_response * site :=
  settle st
    (login_required
       (admin_required (fun _ => Served (inventory_edit_body st method item form)))
       (load_logged_in_user st c)).

Definition inventory_delete (st : site) (c : cookie) (item : Z)
    : guarded inventory_response * site :=
  settle st
    (login_required
       (admin_required (fun _ => Served (inventory_delete_body st item)))
       (load_logged_in_user st c)).

(** ** The sale, as a route *)

Definition with_db (st : site) (db : database) : site :=
  {| site_db := db; meat_items_seq := meat_items_seq st;
     users := users st; users_seq := users_seq st |}.

(** [/sales/new] with POST: [new_sale] behind [login_required], with the
    id of [g.user] as the sale's [user_id]. *)
Definition post_new_sale (st : site) (c : cookie) (now_iso : string)
    (form : post_form) : guarded response * site :=
  settle st
    (login_required
       (fun g_user =>
          match g_user with
          | None => ToLogin
          | Some u =>
              let (r, db') := new_sale (site_db st) now_iso (users_id u) form in
              Served (r, with_db st db')
          end)
       (load_logged_in_user st c)).

(** ** The receipt *)

(** A row of the second query of [sale_receipt]: [si.*, m.name, m.unit]. *)
Record receipt_line := {
  rl_row : sale_item;
  rl_name : string;
  rl_unit : string
}.

Inductive receipt_response :=
| SaleNotFound                  (* "Sale not found." *)
| Receipt (s : sale) (cashier : string) (items : list receipt_line)
| ReceiptRaised (e : exn).

(** [FROM sales s JOIN users u ON s.user_id = u.id WHERE s.id = ?]. *)
Definition sale_with_user (st : site) (sid : Z) : option (sale * string) :=
  match List.find (fun s => sales_id s =? sid) (sales (site_db st)) with
  | None => None
  | Some s =>
      match get_user_by_id (users st) (user_id s) with
      | None => None
      | Some u => Some (s, username u)
      end
  end.

(** [FROM sale_items si JOIN meat_items m ON si.meat_item_id = m.id
    WHERE si.sale_id = ?]. *)
Fixpoint join_items (items : gmap Z meat_item) (rows : list sale_item)
    : list receipt_line :=
  match rows with
  | [] => []
  | r :: rest =>
      match items !! meat_item_id r with
      | None => join_items items rest
      | Some m =>
          {| rl_row := r; rl_name := name m; rl_unit := unit_label m |}
          :: join_items items rest
      end
  end.

Definition receipt_lines (st : site) (sid : Z) : list receipt_line :=
  join_items (meat_items (site_db st))
    (List.filter (fun r => sale_id r =? sid) (sale_items (site_db st))).

Definition sale_receipt_body (st : site) (sid : Z) : receipt_response :=
  if negb (sqlite_integer sid) then ReceiptRaised OverflowError
  else
    match sale_with_user st sid with
    | None => SaleNotFound
    | Some (s, cashier) => Receipt s cashier (receipt_lines st sid)
    end.

Definition sale_receipt (st : site) (c : cookie) (sid : Z) : guarded receipt_response :=
  login_required (fun _ => Served (sale_receipt_body st sid)) (load_logged_in_user st c).

(** ** The price endpoint *)

(** [get_meat_price]: the row as JSON, or 404. *)
Definition get_meat_price_body (st : site) (item : Z) : exn + option (Z * meat_item) :=
  if negb (sqlite_integer item) then inl OverflowError
  else inr ((fun row => (item, row)) <$> meat_items (site_db st) !! item).

(** ** Login and start-up *)

Inductive login_error :=
| CredentialsRequired           (* "Username and password are required." *)
| InvalidCredentials.           (* "Invalid username or password." *)

Inductive login_response :=
| LoginForm                     (* the form, on GET *)
| LoginFlash (e : login_error)  (* the form again, with the error *)
| Welcome (uname : string).     (* f"Welcome, {username}!", to the dashboard *)

Section Passwords.

(** werkzeug's [check_password_hash(pwhash, password)] and
    [generate_password_hash(password)]. *)
Variable check_password_hash : string -> string -> bool.
Variable generate_password_hash : string -> string.

(** [login]; [uname] is the field after [.strip()]. *)
Definition login (st : site) (c : cookie) (method : http_method)
    (uname password : string) : login_response * cookie :=
  match method with
  | GET => (LoginForm, c)
  | POST =>
      let u := get_user_by_username (users st) uname in
      if String.eqb uname "" || String.eqb password ""
      then (LoginFlash CredentialsRequired, c)
      else
        match u with
        | None => (LoginFlash InvalidCredentials, c)
        | Some u =>
            if check_password_hash (password_hash u) password
            then (Welcome (username u),
                  {| cookie_user_id := Some (users_id u);
                     cookie_role := Some (user_role u) |})
            else (LoginFlash InvalidCredentials, c)
        end
  end.

(** The largest id among the users, 0 for none. *)
Definition max_user_id (us : list user) : Z :=
  foldr Z.max 0 (map users_id us).

(** [ensure_default_admin]. *)
Definition ensure_default_admin (st : site) : site :=
  match users st with
  | [] =>
      let rowid := Z.max (users_seq st) (max_user_id (users st)) + 1 in
      {| site_db := site_db st; meat_items_seq := meat_items_seq st;
         users := [ {| users_id := rowid; username := "admin";
                       password_hash := generate_password_hash "admin123";
                       user_role := Admin |} ];
         users_seq := rowid |}
  | _ :: _ => st
  end.

End Passwords.

(** [logout], behind [login_required]. *)
Definition logout (st : site) (c : cookie) : guarded unit * cookie :=
  match load_logged_in_user st c with
  | None => (ToLogin, c)
  | Some _ => (Served tt, cleared)
  end.

(** The rows that [ensure_sample_data] inserts. *)
Definition sample_items : list meat_item :=
  [ {| name := "Beef"; unit_label := "kg"; price_per_unit := 12.5; stock_quantity := 50 |};
    {| name := "Chicken"; unit_label := "kg"; price_per_unit := 6.0; stock_quantity := 80 |};
    {| name := "Pork"; unit_label := "kg"; price_per_unit := 9.0; stock_quantity := 60 |};
    {| name := "Goat"; unit_label := "kg"; price_per_unit := 11.0; stock_quantity := 40 |} ].

(** [executemany]: one [INSERT] per row, in one transaction. *)
Fixpoint insert_meat_items (st : site) (rows : list meat_item) : exn + site :=
  match rows with
  | [] => inr st
  | row :: rest =>
      try! st1 <- insert_meat_item st row;
      insert_meat_items st1 rest
  end.

(** [ensure_sample_data]. *)
Definition ensure_sample_data (st : site) : site :=
  if decide (meat_items (site_db st) = ∅)
  then match insert_meat_items st sample_items with
       | inl _ => st
       | inr st' => st'
       end
  else st.

(** ** More sample data *)

Definition admin_user : user :=
  {| users_id := 1; username := "admin"; password_hash := "pbkdf2:admin123";
     user_role := Admin |}.

Definition cashier_user : user :=
  {| users_id := 2; username := "amina"; password_hash := "pbkdf2:till";
     user_role := Cashier |}.

(** The cookie that a login of [u] leaves. *)
Definition cookie_of (u : user) : cookie :=
  {| cookie_user_id := Some (users_id u); cookie_role := Some (user_role u) |}.

(** The shop with its two users. *)
Definition sample_site (stock : float) : site :=
  {| site_db := shop stock; meat_items_seq := 1;
     users := [admin_user; cashier_user]; users_seq := 2 |}.

(** The item form filled in for pork, the unit left empty. *)
Definition pork_form : item_form :=
  {| item_name := "Pork"; item_unit := ""; item_price := Some 9%float;
     item_stock := Some 60%float |}.

(** A stand-in for werkzeug's pair of functions. *)
Definition toy_generate (password : string) : string :=
  String.append "pbkdf2:" password.

Definition toy_check (pwhash password : string) : bool :=
  String.eqb pwhash (toy_generate password).

(** The shop after the cashier sold five kilograms of beef. *)
Definition site_after_sale : site :=
  snd (post_new_sale (sample_site 50) (cookie_of cashier_user) noon (one_line 1 5 12.5)).

(** ** Invariants *)

(** The ids of the ledger: no id above its counter, no id twice, and every
    row of [sale_items] under a sale that exists. *)
Definition ledger_sound (db : database) : Prop :=
  Forall (fun s => sales_id s <= sales_seq db) (sales db) /\
  NoDup (sales_id <$> sales db) /\
  Forall (fun r => sale_items_id r <= sale_items_seq db) (sale_items db) /\
  NoDup (sale_items_id <$> sale_items db) /\
  Forall (fun r => sale_id r ∈ (sales_id <$> sales db)) (sale_items db).

(** No stock of the catalog is below zero. *)
Definition stock_nonnegative (items : gmap Z meat_item) : Prop :=
  forall item row, items !! item = Some row -> (0 <=? stock_quantity row)%float = true.

(** No id of the catalog is above the counter. *)
Definition catalog_sound (st : site) : Prop :=
  forall item row, meat_items (site_db st) !! item = Some row -> item <= meat_items_seq st.

(** ** Requests in turn *)

(** A request to [/sales/new]: the time it is served at, the user of the
    session and the posted form. *)
Record sale_request := {
  req_now : string;
  req_uid : Z;
  req_form : post_form
}.

(** Requests served one at a time, each on the database the one before it
    left. *)
Definition serve_in_turn (db : database) (requests : list sale_request) : database :=
  fold_left (fun db r => snd (new_sale db (req_now r) (req_uid r) (req_form r)))
    requests db.

(** * Facts about binary64 values *)

Section Binary64.

Local Open Scope float_scope.

Lemma is_nan_spec (x : float) :
  is_nan x = match Prim2SF x with S754_nan => true | _ => false end.
Proof.
  unfold is_nan. rewrite FloatAxioms.eqb_spec.
  destruct (Prim2SF x) as [s | s | | s m e]; try destruct s; cbn;
    rewrite ?Z.compare_refl, ?Pos.compare_cont_refl; reflexivity.
Qed.

(** A positive value below infinity is a finite one with sign bit clear. *)
Lemma positive_finite (q : float) :
  (0 <? q) = true -> (q <? infinity) = true ->
  exists m e, Prim2SF q = S754_finite false m e.
Proof.
  rewrite !FloatAxioms.ltb_spec.
  destruct (Prim2SF q) as [s | [] | | [] m e]; cbn; try discriminate; eauto.
Qed.

Lemma sub_self (q : float) :
  (0 <? q) = true -> (q <? infinity) = true -> q - q = 0.
Proof.
  intros Hpos Hfin. destruct (positive_finite q Hpos Hfin) as (m & e & Hq).
  apply Prim2SF_inj. rewrite FloatAxioms.sub_spec, Hq.
  unfold SF64sub, SFsub. rewrite Z.min_id.
  unfold shl_align. rewrite Z.sub_diag. reflexivity.
Qed.

Lemma positive_not_le_zero (q : float) :
  (0 <? q) = true -> (q <=? 0) = false.
Proof.
  rewrite FloatAxioms.ltb_spec, FloatAxioms.leb_spec.
  destruct (Prim2SF q) as [s | [] | | [] m e]; cbn; congruence.
Qed.

Lemma positive_not_nan (q : float) : (0 <? q) = true -> is_nan q = false.
Proof.
  rewrite FloatAxioms.ltb_spec, is_nan_spec. destruct (Prim2SF q); cbn; congruence.
Qed.

Lemma ltb_irrefl (q : float) : (q <? q) = false.
Proof.
  rewrite FloatAxioms.ltb_spec.
  destruct (Prim2SF q) as [s | s | | s m e]; try destruct s; cbn;
    rewrite ?Z.compare_refl, ?Pos.compare_cont_refl; reflexivity.
Qed.

Lemma mul_not_nan_r (q p : float) : is_nan (q * p) = false -> is_nan p = false.
Proof.
  rewrite !is_nan_spec, FloatAxioms.mul_spec.
  destruct (Prim2SF q), (Prim2SF p); cbn; congruence.
Qed.

Lemma add_zero_not_nan (x : float) : is_nan x = false -> is_nan (0 + x) = false.
Proof.
  rewrite !is_nan_spec, FloatAxioms.add_spec.
  destruct (Prim2SF x) as [[] | [] | | s m e]; cbn; congruence.
Qed.

Lemma zero_sub_not_nan (q : float) :
  (0 <? q) = true -> (q <? infinity) = true -> is_nan (0 - q) = false.
Proof.
  intros Hpos Hfin. destruct (positive_finite q Hpos Hfin) as (m & e & Hq).
  by rewrite is_nan_spec, FloatAxioms.sub_spec, Hq.
Qed.

(** A value that is not NaN compares equal to itself. *)
Lemma not_nan_eqb (x : float) : is_nan x = false -> (x =? x) = true.
Proof.
  unfold is_nan. by destruct (x =? x).
Qed.

Lemma number_above_zero (q : float) :
  is_nan q = false -> (q <=? 0) = false -> (0 <? q) = true.
Proof.
  rewrite is_nan_spec, FloatAxioms.leb_spec, FloatAxioms.ltb_spec.
  destruct (Prim2SF q) as [[] | [] | | [] m e]; cbn; congruence.
Qed.

Lemma number_not_below_zero (p : float) :
  is_nan p = false -> (p <? 0) = false -> (0 <=? p) = true.
Proof.
  rewrite is_nan_spec, FloatAxioms.leb_spec, FloatAxioms.ltb_spec.
  destruct (Prim2SF p) as [[] | [] | | [] m e]; cbn; congruence.
Qed.

Lemma not_below_zero_number (p : float) :
  (0 <=? p) = true -> is_nan p = false /\ (p <? 0) = false.
Proof.
  rewrite is_nan_spec, FloatAxioms.leb_spec, FloatAxioms.ltb_spec.
  destruct (Prim2SF p) as [[] | [] | | [] m e]; cbn; try congruence; done.
Qed.

End Binary64.

(** * Rounding *)

Section Rounding.

(** A value of the format with its sign bit clear, or no value. *)
Local Abbreviation sign_clear x :=
  (match x with
   | S754_zero s | S754_infinity s | S754_finite s _ _ => s = false
   | S754_nan => True
   end).

(** The same, or negative zero. *)
Local Abbreviation not_below_zero x :=
  (SFleb (S754_zero false) x = true \/ x = S754_nan).

Lemma sign_clear_not_below_zero (x : spec_float) :
  sign_clear x -> not_below_zero x.
Proof.
  destruct x as [s | s | | s m e]; intros H; subst; (by left) || (by right).
Qed.

Lemma binary_round_aux_sign (m e : Z) (l : location) :
  sign_clear (binary_round_aux prec emax false m e l).
Proof.
  unfold binary_round_aux.
  destruct (shr_fexp prec emax m e l) as [mrs' e'].
  destruct (shr_fexp prec emax _ e' loc_Exact) as [mrs'' e''].
  destruct (shr_m mrs'') as [| p | p]; [done | | done].
  by destruct (Z.leb _ _).
Qed.

Lemma binary_normalize_sign (m e : Z) :
  0 <= m -> sign_clear (binary_normalize prec emax m e false).
Proof.
  intros Hm. destruct m as [| p | p]; [done | | lia].
  unfold binary_normalize, binary_round.
  destruct (shl_align _ _ _) as [mz ez]. apply binary_round_aux_sign.
Qed.

(** A factor above zero and a factor not below zero. *)
Lemma SFmul_sign (x y : spec_float) :
  SFltb (S754_zero false) x = true -> SFleb (S754_zero false) y = true ->
  not_below_zero (SFmul prec emax x y).
Proof.
  destruct x as [[] | [] | | [] mx ex], y as [[] | [] | | [] my ey];
    intros Hx Hy; try discriminate Hx; try discriminate Hy;
    try (by left); try (by right).
  apply sign_clear_not_below_zero, binary_round_aux_sign.
Qed.

(** A running total with its sign bit clear keeps it clear when a term not
    below zero is added. *)
Lemma SFadd_sign (x y : spec_float) :
  sign_clear x -> not_below_zero y -> sign_clear (SFadd prec emax x y).
Proof.
  destruct x as [[] | [] | | [] mx ex], y as [[] | [] | | [] my ey];
    intros Hx [Hy | Hy]; try discriminate Hx; try discriminate Hy; try done.
  apply binary_normalize_sign. unfold cond_Zopp. lia.
Qed.

Lemma digits2_pos_spec (m : positive) :
  2 ^ (Zpos (digits2_pos m) - 1) <= Zpos m < 2 ^ Zpos (digits2_pos m).
Proof.
  induction m as [m IH | m IH |]; cbn [digits2_pos]; [| | by compute].
  all: rewrite Pos2Z.inj_succ, Z.pow_succ_r by lia.
  all: replace (Z.succ (Zpos (digits2_pos m)) - 1)
         with (Z.succ (Zpos (digits2_pos m) - 1)) by lia.
  all: rewrite Z.pow_succ_r by lia; lia.
Qed.

Lemma iter_xO (d m : positive) : Zpos (Pos.iter xO m d) = Zpos m * 2 ^ Zpos d.
Proof.
  induction d as [| d IH] using Pos.peano_ind.
  - simpl. lia.
  - rewrite Pos.iter_succ, Pos2Z.inj_succ, Z.pow_succ_r by lia.
    rewrite Pos2Z.inj_xO, IH. lia.
Qed.

(** Of two canonical magnitudes, the one with the larger exponent is the
    larger: it has all 53 digits, and the other has no more. *)
Lemma aligned_magnitudes (mx my : positive) (ex ey : Z) :
  bounded prec emax mx ex = true -> bounded prec emax my ey = true ->
  ey < ex ->
  Zpos (fst (shl_align my ey ey)) <= Zpos (fst (shl_align mx ex ey)).
Proof.
  unfold bounded, canonical_mantissa, fexp, SpecFloat.emin.
  intros [Hx _]%andb_true_iff [Hy _]%andb_true_iff Hlt.
  apply Z.eqb_eq in Hx, Hy.
  unfold shl_align. rewrite Z.sub_diag.
  destruct (ey - ex) as [| d | d] eqn:Hd; try lia.
  cbn [fst]. rewrite iter_xO.
  pose proof (digits2_pos_spec mx) as [Hmx _].
  pose proof (digits2_pos_spec my) as [_ Hmy].
  assert (Zpos (digits2_pos mx) = prec) as Hdx by lia.
  assert (Zpos (digits2_pos my) <= prec) as Hdy by lia.
  rewrite Hdx in Hmx.
  assert (2 ^ Zpos (digits2_pos my) <= 2 ^ prec) by (apply Z.pow_le_mono_r; lia).
  assert (2 ^ 1 <= 2 ^ Zpos d) by (apply Z.pow_le_mono_r; lia).
  assert (2 ^ prec = 2 * 2 ^ (prec - 1)) by (by compute).
  change (2 ^ 1) with 2 in *. nia.
Qed.

Lemma SFsub_sign (x y : spec_float) :
  valid_binary x = true -> valid_binary y = true ->
  SFltb (S754_zero false) y = true -> SFltb x y = false ->
  not_below_zero (SFsub prec emax x y).
Proof.
  destruct x as [[] | [] | | [] mx ex], y as [[] | [] | | [] my ey];
    intros Vx Vy Hy Hlt; try discriminate Hy; try discriminate Hlt;
    try (by left); try (by right).
  apply sign_clear_not_below_zero, binary_normalize_sign. unfold cond_Zopp.
  unfold SFltb, SFcompare in Hlt. simpl in Vx, Vy.
  destruct (Z.compare_spec ex ey) as [-> | Hex | Hex]; [| discriminate |].
  - rewrite Z.min_id. unfold shl_align. rewrite Z.sub_diag. cbn [fst].
    destruct (Pos.compare_cont Eq mx my) eqn:Hcmp; try discriminate.
    + apply Pos.compare_eq in Hcmp. lia.
    + apply Pos.compare_gt_iff in Hcmp. lia.
  - rewrite Z.min_r by lia.
    pose proof (aligned_magnitudes mx my ex ey Vx Vy Hex). lia.
Qed.

(** Shifting a magnitude to the right halves it once per digit. *)
Lemma shr_1_m (r : shr_record) : 0 <= shr_m r -> shr_m (shr_1 r) = shr_m r / 2.
Proof.
  destruct r as [m r s]. simpl. intros Hm.
  destruct m as [| [p | p |] | p]; try lia; simpl.
  - reflexivity.
  - rewrite Pos2Z.inj_xI. apply (Z.div_unique _ _ _ 1); lia.
  - rewrite Pos2Z.inj_xO. apply (Z.div_unique _ _ _ 0); lia.
  - reflexivity.
Qed.

Lemma iter_pos_shr_1 (p : positive) : forall r,
  0 <= shr_m r -> shr_m (SpecFloat.iter_pos shr_1 p r) = shr_m r / 2 ^ Zpos p.
Proof.
  induction p as [p IH | p IH |]; intros r Hr; cbn [SpecFloat.iter_pos].
  - assert (0 <= shr_m (shr_1 r)) as H1
      by (rewrite shr_1_m by done; apply Z.div_pos; lia).
    assert (0 <= shr_m (SpecFloat.iter_pos shr_1 p (shr_1 r))) as H2
      by (rewrite IH by done; apply Z.div_pos; lia).
    rewrite (IH _ H2), (IH _ H1), shr_1_m by done.
    rewrite !Z.div_div by lia. f_equal.
    replace (Zpos p~1) with (1 + Zpos p + Zpos p) by lia.
    rewrite !Z.pow_add_r by lia. change (2 ^ 1) with 2. lia.
  - assert (0 <= shr_m (SpecFloat.iter_pos shr_1 p r)) as H2
      by (rewrite IH by done; apply Z.div_pos; lia).
    rewrite (IH _ H2), (IH _ Hr).
    rewrite !Z.div_div by lia. f_equal.
    replace (Zpos p~0) with (Zpos p + Zpos p) by lia.
    rewrite Z.pow_add_r by lia. lia.
  - rewrite shr_1_m by done. reflexivity.
Qed.

(** At an exponent of the format, a magnitude that is not zero is not
    rounded to zero: only digits beyond the 53rd are shifted out. *)
Lemma shr_fexp_pos (m : positive) (e : Z) (l : location) :
  SpecFloat.emin prec emax <= e ->
  0 < shr_m (fst (shr_fexp prec emax (Zpos m) e l)) /\
  SpecFloat.emin prec emax <= snd (shr_fexp prec emax (Zpos m) e l).
Proof.
  intros He. unfold shr_fexp, shr, fexp. cbn [Zdigits2].
  assert (shr_m (shr_record_of_loc (Zpos m) l) = Zpos m) as Hm
    by (by destruct l as [| []]).
  destruct (Z.max _ _ - e) as [| p | p] eqn:Hn; cbn [fst snd];
    [rewrite Hm; lia | | rewrite Hm; lia].
  rewrite iter_pos_shr_1, Hm by lia. split; [| lia].
  assert (Zpos (digits2_pos m) - prec = Zpos p) as Hd by lia.
  pose proof (digits2_pos_spec m) as [Hlow _].
  replace (Zpos (digits2_pos m) - 1) with (Zpos p + (prec - 1)) in Hlow by lia.
  rewrite Z.pow_add_r in Hlow by (unfold prec; lia).
  assert (0 < 2 ^ Zpos p) by (apply Z.pow_pos_nonneg; lia).
  assert (1 <= 2 ^ (prec - 1)) by (by compute).
  apply Z.lt_le_trans with 1; [lia |].
  apply Z.div_le_lower_bound; [done | nia].
Qed.

Lemma round_nearest_even_pos (m : Z) (l : location) :
  0 < m -> 0 < round_nearest_even m l.
Proof.
  intros Hm. unfold round_nearest_even.
  destruct l as [| []]; try destruct (Z.even m); lia.
Qed.

Lemma binary_round_aux_not_zero (sx s : bool) (m : positive) (e : Z) (l : location) :
  SpecFloat.emin prec emax <= e ->
  binary_round_aux prec emax sx (Zpos m) e l <> S754_zero s.
Proof.
  intros He. unfold binary_round_aux.
  pose proof (shr_fexp_pos m e l He) as [Hm He'].
  destruct (shr_fexp prec emax (Zpos m) e l) as [mrs' e']. cbn [fst snd] in Hm, He'.
  pose proof (round_nearest_even_pos (shr_m mrs') (loc_of_shr_record mrs') Hm) as Hr.
  destruct (round_nearest_even _ _) as [| m1 | m1]; try lia.
  pose proof (shr_fexp_pos m1 e' loc_Exact He') as [Hm1 _].
  destruct (shr_fexp prec emax (Zpos m1) e' loc_Exact) as [mrs'' e''].
  cbn [fst] in Hm1.
  destruct (shr_m mrs'') as [| m2 | m2]; try lia.
  by destruct (Z.leb _ _).
Qed.

Lemma binary_round_not_zero (sx s : bool) (m : positive) (e : Z) :
  SpecFloat.emin prec emax <= e ->
  binary_round prec emax sx m e <> S754_zero s.
Proof.
  intros He. unfold binary_round.
  destruct (shl_align _ _ _) as [mz ez] eqn:Halign.
  apply binary_round_aux_not_zero.
  unfold shl_align, fexp in Halign.
  destruct (Z.max _ _ - e) as [| d | d] eqn:Hd; injection Halign as <- <-; lia.
Qed.

(** Rounding a magnitude gives a value. *)
Lemma shr_fexp_nonneg (m e : Z) (l : location) :
  0 <= m -> 0 <= shr_m (fst (shr_fexp prec emax m e l)).
Proof.
  intros Hm. unfold shr_fexp, shr.
  assert (shr_m (shr_record_of_loc m l) = m) as Hrec
    by (by destruct l as [| []]).
  destruct (_ - e) as [| p | p]; cbn [fst]; rewrite ?Hrec; try done.
  rewrite iter_pos_shr_1, Hrec by lia. apply Z.div_pos; lia.
Qed.

Lemma binary_round_aux_number (sx : bool) (m e : Z) (l : location) :
  0 <= m -> binary_round_aux prec emax sx m e l <> S754_nan.
Proof.
  intros Hm. unfold binary_round_aux.
  pose proof (shr_fexp_nonneg m e l Hm) as Hm'.
  destruct (shr_fexp prec emax m e l) as [mrs' e']. cbn [fst] in Hm'.
  assert (0 <= round_nearest_even (shr_m mrs') (loc_of_shr_record mrs')) as Hr.
  { unfold round_nearest_even.
    destruct (loc_of_shr_record mrs') as [| []]; try destruct (Z.even _); lia. }
  pose proof (shr_fexp_nonneg _ e' loc_Exact Hr) as Hm''.
  destruct (shr_fexp prec emax _ e' loc_Exact) as [mrs'' e'']. cbn [fst] in Hm''.
  destruct (shr_m mrs'') as [| m2 | m2]; try lia; [done |].
  by destruct (Z.leb _ _).
Qed.

Lemma bounded_emin (m : positive) (e : Z) :
  bounded prec emax m e = true -> SpecFloat.emin prec emax <= e.
Proof.
  unfold bounded, canonical_mantissa, fexp.
  intros [H _]%andb_true_iff. apply Z.eqb_eq in H. lia.
Qed.

(** Taking a quantity above zero from a stock never leaves negative zero. *)
Lemma SFsub_not_negative_zero (x y : spec_float) :
  valid_binary x = true -> valid_binary y = true ->
  SFltb (S754_zero false) y = true ->
  SFsub prec emax x y <> S754_zero true.
Proof.
  destruct x as [[] | [] | | sx mx ex], y as [[] | [] | | [] my ey];
    intros Vx Vy Hy; try discriminate Hy; try done.
  simpl in Vx, Vy. apply bounded_emin in Vx, Vy.
  unfold SFsub, binary_normalize.
  destruct (_ - _) as [| m | m]; [done | |]; apply binary_round_not_zero; lia.
Qed.

Local Open Scope float_scope.

(** ** What a [REAL] column gives back *)

Lemma sqlite_real_spec (x : float) :
  Prim2SF (sqlite_real x) =
  match Prim2SF x with
  | S754_zero _ => S754_zero false
  | y => y
  end.
Proof.
  unfold sqlite_real. rewrite FloatAxioms.eqb_spec.
  destruct (Prim2SF x) as [s | s | | s m e] eqn:Hx; try (by destruct s).
  done.
Qed.

Lemma sqlite_real_id (x : float) :
  Prim2SF x <> S754_zero true -> sqlite_real x = x.
Proof.
  intros Hx. apply Prim2SF_inj. rewrite sqlite_real_spec.
  by destruct (Prim2SF x) as [[] | s | | s m e].
Qed.

Lemma sqlite_real_sign_clear (x : float) :
  sign_clear (Prim2SF x) -> sqlite_real x = x.
Proof.
  intros Hx. apply sqlite_real_id. intros H. by rewrite H in Hx.
Qed.

Lemma is_nan_sqlite_real (x : float) : is_nan (sqlite_real x) = is_nan x.
Proof.
  rewrite !is_nan_spec, sqlite_real_spec. by destruct (Prim2SF x).
Qed.

Lemma ltb_sqlite_real_r (x y : float) : (x <? sqlite_real y) = (x <? y).
Proof.
  rewrite !FloatAxioms.ltb_spec, sqlite_real_spec.
  by destruct (Prim2SF x) as [[] | [] | | [] m e], (Prim2SF y) as [[] | [] | | [] m' e'].
Qed.

Lemma leb_sqlite_real_r (x y : float) : (x <=? sqlite_real y) = (x <=? y).
Proof.
  rewrite !FloatAxioms.leb_spec, sqlite_real_spec.
  by destruct (Prim2SF x) as [[] | [] | | [] m e], (Prim2SF y) as [[] | [] | | [] m' e'].
Qed.

Lemma sqlite_real_positive (q : float) : (0 <? q) = true -> sqlite_real q = q.
Proof.
  rewrite FloatAxioms.ltb_spec. intros Hq. apply sqlite_real_id.
  intros H. by rewrite H in Hq.
Qed.

Lemma sqlite_real_sub (s q : float) :
  (0 <? q) = true -> sqlite_real (s - q) = s - q.
Proof.
  rewrite FloatAxioms.ltb_spec. intros Hq.
  apply sqlite_real_id. rewrite FloatAxioms.sub_spec.
  apply SFsub_not_negative_zero; [apply Prim2SF_valid | apply Prim2SF_valid | done].
Qed.

(** The product of a quantity above zero and a price not below zero, as
    the column holds it, is the product of the quantity and the price as
    the column holds that. *)
Lemma sqlite_real_mul (q p : float) :
  (0 <? q) = true -> (0 <=? p) = true ->
  sqlite_real (q * p) = q * sqlite_real p.
Proof.
  rewrite FloatAxioms.ltb_spec, FloatAxioms.leb_spec. intros Hq Hp.
  apply Prim2SF_inj.
  rewrite sqlite_real_spec, !FloatAxioms.mul_spec, sqlite_real_spec.
  unfold SF64mul.
  destruct (Prim2SF q) as [[] | [] | | [] mq eq], (Prim2SF p) as [[] | [] | | [] mp ep];
    try discriminate Hq; try discriminate Hp; try done.
  pose proof (binary_round_aux_sign (Zpos (mq * mp)) (eq + ep) loc_Exact) as Hs.
  cbn [SFmul xorb] in *.
  by destruct (binary_round_aux _ _ _ _ _ _) as [[] | s | | s m e].
Qed.

(** A finite quantity above zero times a price that is a number not below
    zero is a number. *)
Lemma mul_number (q p : float) :
  (0 <? q) = true -> (q <? infinity) = true -> (0 <=? p) = true ->
  is_nan (q * p) = false.
Proof.
  rewrite !FloatAxioms.ltb_spec, FloatAxioms.leb_spec, is_nan_spec,
    FloatAxioms.mul_spec.
  unfold SF64mul.
  destruct (Prim2SF q) as [[] | [] | | [] mq eq], (Prim2SF p) as [[] | [] | | [] mp ep];
    intros Hq Hfin Hp; try discriminate Hq; try discriminate Hfin;
    try discriminate Hp; try done.
  cbn [SFmul xorb].
  pose proof (binary_round_aux_number false (Zpos (mq * mp)) (eq + ep) loc_Exact) as H.
  destruct (binary_round_aux _ _ _ _ _ _); try done. by destruct H.
Qed.

(** ** Signs of products, totals and stocks *)

(** A quantity above zero times a price not below zero is not below zero. *)
Lemma mul_nonneg (q p : float) :
  (0 <? q) = true -> (0 <=? p) = true -> is_nan (q * p) = false ->
  (0 <=? q * p) = true.
Proof.
  rewrite FloatAxioms.ltb_spec, !FloatAxioms.leb_spec, is_nan_spec,
    FloatAxioms.mul_spec.
  intros Hq Hp Hnan.
  destruct (SFmul_sign _ _ Hq Hp) as [H | H]; [done |].
  unfold SF64mul in Hnan. by rewrite H in Hnan.
Qed.

(** A stock that is not below the quantity taken from it, a quantity above
    zero, is not left below zero. *)
Lemma sub_nonneg (s q : float) :
  (0 <? q) = true -> (s <? q) = false -> is_nan (s - q) = false ->
  (0 <=? s - q) = true.
Proof.
  rewrite !FloatAxioms.ltb_spec, FloatAxioms.leb_spec, is_nan_spec,
    FloatAxioms.sub_spec.
  intros Hq Hlt Hnan.
  destruct (SFsub_sign _ _ (Prim2SF_valid s) (Prim2SF_valid q) Hq Hlt) as [H | H];
    [done |].
  unfold SF64sub in Hnan. by rewrite H in Hnan.
Qed.

(** The running total of the view: it starts at [0.0] and products of a
    quantity above zero and a price not below zero are added to it. *)
Local Abbreviation product_terms terms :=
  (Forall (fun t => exists q p, t = q * p /\ (0 <? q) = true /\ (0 <=? p) = true)
     terms).

Lemma product_not_below_zero (q p : float) :
  (0 <? q) = true -> (0 <=? p) = true -> not_below_zero (Prim2SF (q * p)).
Proof.
  rewrite FloatAxioms.ltb_spec, FloatAxioms.leb_spec, FloatAxioms.mul_spec.
  apply SFmul_sign.
Qed.

Lemma fold_add_sign (terms : list float) : forall acc,
  sign_clear (Prim2SF acc) -> product_terms terms ->
  sign_clear (Prim2SF (fold_left PrimFloat.add terms acc)).
Proof.
  induction terms as [| t terms IH]; intros acc Hacc Hterms; simpl; [done |].
  inversion Hterms as [| ? ? (q & p & -> & Hq & Hp) Hrest]; subst.
  apply IH; [| done]. rewrite FloatAxioms.add_spec.
  by apply SFadd_sign, product_not_below_zero.
Qed.

(** Such a total is never negative zero: the column gives it back as it
    is. *)
Lemma sqlite_real_total (terms : list float) :
  product_terms terms ->
  sqlite_real (fold_left PrimFloat.add terms 0) = fold_left PrimFloat.add terms 0.
Proof.
  intros Hterms. by apply sqlite_real_sign_clear, fold_add_sign.
Qed.

(** Nor does it matter to the total whether a term that is negative zero
    is added as it is or as the column gives it back. *)
Lemma add_sqlite_real (acc t : float) :
  sign_clear (Prim2SF acc) -> acc + sqlite_real t = acc + t.
Proof.
  intros Hacc. apply Prim2SF_inj.
  rewrite !FloatAxioms.add_spec, sqlite_real_spec.
  destruct (Prim2SF t) as [[] | s | | s m e]; try done.
  by destruct (Prim2SF acc) as [[] | [] | | [] ma ea].
Qed.

Lemma fold_add_sqlite_real (terms : list float) : forall acc,
  sign_clear (Prim2SF acc) -> product_terms terms ->
  fold_left PrimFloat.add (map sqlite_real terms) acc
  = fold_left PrimFloat.add terms acc.
Proof.
  induction terms as [| t terms IH]; intros acc Hacc Hterms; simpl; [done |].
  inversion Hterms as [| ? ? (q & p & -> & Hq & Hp) Hrest]; subst.
  rewrite add_sqlite_real by done.
  apply IH; [| done]. rewrite FloatAxioms.add_spec.
  by apply SFadd_sign, product_not_below_zero.
Qed.

Lemma fsum_sqlite_real (terms : list float) :
  product_terms terms ->
  fold_left PrimFloat.add (map sqlite_real terms) 0
  = fold_left PrimFloat.add terms 0.
Proof. intros Hterms. by apply fold_add_sqlite_real. Qed.

(** A total that is a number is not below zero. *)
Lemma fold_add_nonneg (terms : list float) :
  product_terms terms ->
  is_nan (fold_left PrimFloat.add terms 0) = false ->
  (0 <=? fold_left PrimFloat.add terms 0) = true.
Proof.
  intros Hterms Hnan.
  pose proof (fold_add_sign terms 0 eq_refl Hterms) as Hsign.
  apply sign_clear_not_below_zero in Hsign as [H | H].
  - by rewrite FloatAxioms.leb_spec.
  - rewrite is_nan_spec in Hnan. by rewrite H in Hnan.
Qed.

End Rounding.

(** * The validation loop *)

Section Validation.

Variable db : database.
Variables quantities unit_prices : list float_field.

Local Abbreviation loop := (check_lines db quantities unit_prices).

(** A loop that ends with [error] unset entered with it unset, ran through
    every line, and appended one line item per line that is filled in. *)
Lemma check_lines_accepts item_ids : forall idx error line_items total line_items' total',
  loop idx item_ids error line_items total = LoopEnd None line_items' total' ->
  error = None /\
  exists added,
    line_items' = line_items ++ added /\
    total' = fold_left PrimFloat.add (map li_line_total added) total /\
    Forall (fun li => li_line_total li = (li_quantity li * li_unit_price li)%float) added /\
    map line_of added = entered quantities unit_prices idx item_ids.
Proof.
  induction item_ids as [| item_id rest IH]; intros idx error line_items total
    line_items' total' H; simpl in H.
  - injection H as -> -> ->. split; [reflexivity |].
    exists []. rewrite app_nil_r. repeat split; constructor.
  - destruct item_id as [| parsed]; simpl; [eauto |].
    repeat case_match; try discriminate.
    apply IH in H as (-> & added & -> & -> & Hprod & Hlines).
    split; [reflexivity |].
    eexists (_ :: added). rewrite <- app_assoc. simpl.
    repeat split; [by constructor | by rewrite Hlines].
Qed.

(** Lines that pass leave the loop where it would be without them. *)
Lemma check_lines_app prefix rest error : forall idx line_items total line_items' total',
  loop idx prefix None line_items total = LoopEnd None line_items' total' ->
  loop idx (prefix ++ rest) error line_items total =
  loop (idx + length prefix)%nat rest error line_items' total'.
Proof.
  induction prefix as [| item_id prefix IH]; intros idx line_items total
    line_items' total' H; simpl in H.
  - injection H as -> ->. simpl. by rewrite Nat.add_0_r.
  - simpl. rewrite Nat.add_succ_r.
    destruct item_id as [| parsed]; [by apply IH |].
    repeat case_match; try discriminate. by apply IH.
Qed.

(** Lines with an empty [item_id] are passed over. *)
Lemma check_lines_blank item_ids : forall idx error line_items total,
  Forall (eq IdEmpty) item_ids ->
  loop idx item_ids error line_items total = LoopEnd error line_items total.
Proof.
  induction item_ids as [| item_id rest IH]; intros idx error line_items total H.
  - reflexivity.
  - inversion H as [| ? ? <- Hrest]; subst. simpl. by apply IH.
Qed.

End Validation.

Section MoreValidation.

Variable db : database.
Variables quantities unit_prices : list float_field.

Local Abbreviation loop' := (check_lines db quantities unit_prices).

(** A loop that stops at a line does not depend on the lines after it. *)
Lemma check_lines_stops (item_ids more : list id_field) : forall idx line_items total,
  (forall line_items' total',
     loop' idx item_ids None line_items total <> LoopEnd None line_items' total') ->
  loop' idx (item_ids ++ more) None line_items total =
  loop' idx item_ids None line_items total.
Proof.
  induction item_ids as [| item_id rest IH]; intros idx line_items total H.
  - by destruct (H line_items total).
  - simpl in *. destruct item_id as [| parsed]; [by apply IH |].
    revert H. repeat case_match; intros Hstop; try reflexivity. by apply IH.
Qed.

(** What the loop has checked of every line item it appended. *)
Lemma check_lines_checked (item_ids : list id_field) :
  forall idx error line_items total line_items' total',
  loop' idx item_ids error line_items total = LoopEnd None line_items' total' ->
  exists added,
    line_items' = line_items ++ added /\
    Forall (fun li =>
              (li_quantity li <=? 0)%float = false /\
              (li_unit_price li <? 0)%float = false /\
              exists row,
                meat_items db !! li_meat_item_id li = Some row /\
                li_name li = name row /\
                (stock_quantity row <? li_quantity li)%float = false) added.
Proof.
  induction item_ids as [| item_id rest IH]; intros idx error line_items total
    line_items' total' H; simpl in H.
  - injection H as _ -> _. exists []. by rewrite app_nil_r.
  - destruct item_id as [| parsed]; [eauto |].
    repeat case_match; try discriminate.
    apply IH in H as (added & -> & Hadded).
    eexists (_ :: added). rewrite <- app_assoc. split; [reflexivity |].
    constructor; [| done]. simpl.
    match goal with
    | Hor : (_ || _) = false |- _ => apply orb_false_iff in Hor as [? ?]
    end.
    repeat split; eauto.
Qed.

End MoreValidation.

(** * The transaction *)

Lemma set_stock_same (row : meat_item) : set_stock row (stock_quantity row) = row.
Proof. by destruct row. Qed.

(** ** The rows of sound line items *)

Lemma quantities_of_rows (item : Z) (line_items : list line_item) : forall seq sid,
  Forall sound_line line_items ->
  quantities_of item (rows_of seq sid line_items) = ordered item line_items.
Proof.
  unfold quantities_of, ordered.
  induction line_items as [| li rest IH]; intros seq sid H; simpl; [done |].
  inversion H as [| ? ? (Hq & _) Hrest]; subst.
  destruct (li_meat_item_id li =? item); simpl; rewrite IH by done; [| done].
  by rewrite sqlite_real_positive.
Qed.

Lemma rows_of_lines (line_items : list line_item) : forall seq sid,
  Forall sound_line line_items ->
  map row_line (rows_of seq sid line_items) = map stored_line (map line_of line_items).
Proof.
  induction line_items as [| li rest IH]; intros seq sid H; simpl; [done |].
  inversion H as [| ? ? (Hq & _) Hrest]; subst.
  rewrite IH by done. unfold row_line, stored_line, line_of. simpl.
  by rewrite sqlite_real_positive.
Qed.

Lemma rows_of_sale (line_items : list line_item) : forall seq sid,
  Forall (fun r => sale_id r = sid) (rows_of seq sid line_items).
Proof.
  induction line_items as [| li rest IH]; intros seq sid; simpl; by constructor.
Qed.

(** Every row holds the product of the quantity and the price it holds. *)
Lemma rows_of_products (line_items : list line_item) : forall seq sid,
  Forall sound_line line_items ->
  Forall (fun r => line_total r = row_product r) (rows_of seq sid line_items) /\
  map row_product (rows_of seq sid line_items)
  = map sqlite_real (map li_line_total line_items).
Proof.
  induction line_items as [| li rest IH]; intros seq sid H; simpl; [done |].
  inversion H as [| ? ? (Hq & Hp & Hli) Hrest]; subst.
  destruct (IH (seq + 1) sid Hrest) as [IH1 IH2].
  assert (sqlite_real (li_line_total li)
          = (sqlite_real (li_quantity li) * sqlite_real (li_unit_price li))%float)
    as Hstored.
  { rewrite Hli, sqlite_real_mul by done.
    by rewrite (sqlite_real_positive (li_quantity li)). }
  split; [by constructor |].
  unfold row_product at 1. simpl. by rewrite IH2, Hstored.
Qed.

Lemma sound_line_terms (line_items : list line_item) :
  Forall sound_line line_items ->
  Forall (fun t => exists q p, t = (q * p)%float /\
                               (0 <? q)%float = true /\ (0 <=? p)%float = true)
    (map li_line_total line_items).
Proof.
  induction 1 as [| li rest (Hq & Hp & Hli) Hrest IH]; simpl; constructor; eauto.
Qed.

Lemma sound_line_products (line_items : list line_item) :
  Forall sound_line line_items ->
  map li_line_total line_items = map line_product (map line_of line_items).
Proof.
  induction 1 as [| li rest (Hq & Hp & Hli) Hrest IH]; simpl; [done |].
  by rewrite IH, Hli.
Qed.

(** The quantities of sound line items are above zero, and a difference
    with such a quantity is held by the column as it is. *)
Lemma stored_deduct_all_ordered (item : Z) (line_items : list line_item) :
  Forall sound_line line_items ->
  forall stock, stored_deduct_all stock (ordered item line_items)
                = deduct_all stock (ordered item line_items).
Proof.
  unfold stored_deduct_all, deduct_all, ordered.
  induction 1 as [| li rest (Hq & _) Hrest IH]; intros stock; simpl; [done |].
  destruct (li_meat_item_id li =? item); simpl; [| done].
  by rewrite sqlite_real_sub, IH.
Qed.

(** ** The statements *)

(** One [UPDATE]: the row of that id, if any, has the quantity subtracted
    from its stock, whatever the sign of the difference. *)
Lemma deduct_stock_lookup (db db' : database) (qty : float) (item : Z) :
  deduct_stock db qty item = inr db' ->
  sales db' = sales db /\ sales_seq db' = sales_seq db /\
  sale_items db' = sale_items db /\ sale_items_seq db' = sale_items_seq db /\
  forall other, meat_items db' !! other =
    (fun row => set_stock row (stored_deduct_all (stock_quantity row)
                                 (if item =? other then [qty] else [])))
    <$> meat_items db !! other.
Proof.
  unfold deduct_stock. intros H.
  destruct (meat_items db !! item) as [row |] eqn:Hrow.
  - case_match; [discriminate |]. injection H as <-. simpl.
    repeat split. intros other. destruct (Z.eqb_spec item other) as [<- | Hne].
    + by rewrite lookup_insert_eq, Hrow.
    + rewrite lookup_insert_ne by done.
      destruct (meat_items db !! other) as [row' |]; simpl; [| done].
      by rewrite set_stock_same.
  - injection H as <-. repeat split. intros other.
    destruct (meat_items db !! other) as [row' |] eqn:Hother; simpl; [| done].
    destruct (Z.eqb_spec item other) as [<- | Hne]; [congruence |].
    simpl. by rewrite set_stock_same.
Qed.

(** The loop of the transaction: the sales are untouched, one row is
    appended per line item, and each stock has the quantities of the line
    items of its id subtracted one after the other. *)
Lemma persist_lines_spec (line_items : list line_item) : forall db sid db',
  persist_lines db sid line_items = inr db' ->
  sales db' = sales db /\ sales_seq db' = sales_seq db /\
  sale_items db' = sale_items db ++ rows_of (sale_items_seq db) sid line_items /\
  forall item, meat_items db' !! item =
    (fun row => set_stock row
                  (stored_deduct_all (stock_quantity row) (ordered item line_items)))
    <$> meat_items db !! item.
Proof.
  induction line_items as [| li rest IH]; intros db sid db' H; simpl in H.
  - injection H as <-. rewrite app_nil_r. repeat split. intros item.
    destruct (meat_items db !! item); simpl; [| done]. by rewrite set_stock_same.
  - unfold insert_sale_item in H. case_match; [discriminate |]. simpl in H.
    destruct (deduct_stock _ _ _) as [e | db2] eqn:Hdeduct; [discriminate |].
    simpl in H. apply IH in H as (Hs & Hq & Hrows & Hstock).
    apply deduct_stock_lookup in Hdeduct as (Hs2 & Hq2 & Hrows2 & Hseq2 & Hstock2).
    simpl in *. rewrite Hs, Hs2, Hq, Hq2, Hrows, Hrows2, Hseq2, <- app_assoc.
    repeat split. intros item. rewrite Hstock, Hstock2.
    unfold ordered. simpl.
    destruct (meat_items db !! item) as [row |]; simpl; [| done].
    by destruct (li_meat_item_id li =? item).
Qed.

(** The rows the loop inserted hold numbers: a NaN would have been refused. *)
Lemma persist_lines_numbers (line_items : list line_item) : forall db sid db',
  persist_lines db sid line_items = inr db' ->
  Forall (fun r => is_nan (line_total r) = false)
    (rows_of (sale_items_seq db) sid line_items).
Proof.
  induction line_items as [| li rest IH]; intros db sid db' H; simpl in H;
    [constructor |].
  unfold insert_sale_item in H.
  destruct (is_nan (li_quantity li) || is_nan (li_unit_price li)
            || is_nan (li_line_total li)) eqn:Hnan; [discriminate |].
  simpl in H.
  destruct (deduct_stock _ _ _) as [e | db2] eqn:Hdeduct; [discriminate |].
  simpl in H. apply IH in H.
  apply deduct_stock_lookup in Hdeduct as (_ & _ & _ & Hseq & _). simpl in Hseq.
  rewrite Hseq in H. simpl. constructor; [| done].
  simpl. rewrite is_nan_sqlite_real. apply orb_false_iff in Hnan. tauto.
Qed.

(** The whole transaction. *)
Lemma persist_spec (db db' : database) now_iso uid customer line_items total sid :
  persist db now_iso uid customer line_items total = inr (sid, db') ->
  is_nan total = false /\
  sid = sales_seq db + 1 /\
  sales db' = sales db ++ [ {| sales_id := sid; sale_datetime := now_iso;
                               user_id := uid; customer_name := or_None customer;
                               total_amount := sqlite_real total |} ] /\
  sale_items db' = sale_items db ++ rows_of (sale_items_seq db) sid line_items /\
  Forall (fun r => is_nan (line_total r) = false)
    (rows_of (sale_items_seq db) sid line_items) /\
  forall item, meat_items db' !! item =
    (fun row => set_stock row
                  (stored_deduct_all (stock_quantity row) (ordered item line_items)))
    <$> meat_items db !! item.
Proof.
  unfold persist, insert_sale. intros H.
  destruct (is_nan total); [discriminate |]. simpl in H.
  destruct (persist_lines _ _ _) as [e | db2] eqn:Hlines; [discriminate |].
  injection H as <- <-.
  pose proof (persist_lines_numbers _ _ _ _ Hlines) as Hnum.
  apply persist_lines_spec in Hlines as (Hs & _ & Hrows & Hstock). simpl in *.
  by rewrite Hs, Hrows.
Qed.

(** The rows of a list of line items, seen from a row. *)
Lemma rows_of_elem (line_items : list line_item) : forall seq sid r,
  r ∈ rows_of seq sid line_items ->
  sale_id r = sid /\ seq < sale_items_id r <= seq + Z.of_nat (length line_items) /\
  exists li, li ∈ line_items /\
    meat_item_id r = li_meat_item_id li /\
    quantity r = sqlite_real (li_quantity li) /\
    unit_price r = sqlite_real (li_unit_price li) /\
    line_total r = sqlite_real (li_line_total li).
Proof.
  induction line_items as [| li rest IH]; intros seq sid r Hr; simpl in Hr.
  - by apply elem_of_nil in Hr.
  - apply elem_of_cons in Hr as [-> | Hr].
    + simpl. repeat split; try lia. exists li. repeat split. by left.
    + apply IH in Hr as (Hsid & Hid & li' & Hli' & Hfields).
      simpl. repeat split; try done; try lia.
      exists li'. split; [by right | done].
Qed.

Lemma rows_of_ids (line_items : list line_item) : forall seq sid,
  NoDup (sale_items_id <$> rows_of seq sid line_items).
Proof.
  induction line_items as [| li rest IH]; intros seq sid; simpl; constructor.
  - intros Hin. apply list_elem_of_fmap in Hin as (r & Hid & Hr).
    apply rows_of_elem in Hr as (_ & Hrange & _). simpl in Hid. lia.
  - apply IH.
Qed.

(** The rows the loop inserted hold numbers in all three columns. *)
Lemma persist_lines_all_numbers (line_items : list line_item) : forall db sid db',
  persist_lines db sid line_items = inr db' ->
  Forall (fun li => is_nan (li_quantity li) = false /\
                    is_nan (li_unit_price li) = false /\
                    is_nan (li_line_total li) = false) line_items /\
  sale_items_seq db' = sale_items_seq db + Z.of_nat (length line_items).
Proof.
  induction line_items as [| li rest IH]; intros db sid db' H; simpl in H.
  - injection H as <-. split; [constructor | simpl; lia].
  - unfold insert_sale_item in H.
    destruct (is_nan (li_quantity li) || is_nan (li_unit_price li)
              || is_nan (li_line_total li)) eqn:Hnan; [discriminate |].
    simpl in H.
    destruct (deduct_stock _ _ _) as [e | db2] eqn:Hdeduct; [discriminate |].
    simpl in H. apply IH in H as [Hrest Hseq].
    apply deduct_stock_lookup in Hdeduct as (_ & _ & _ & Hseq2 & _). simpl in Hseq2.
    apply orb_false_iff in Hnan as [Hnan ?]. apply orb_false_iff in Hnan as [? ?].
    split; [by constructor |].
    rewrite Hseq, Hseq2. simpl length. lia.
Qed.

Lemma persist_seqs (db db' : database) now_iso uid customer line_items total sid :
  persist db now_iso uid customer line_items total = inr (sid, db') ->
  sales_seq db' = sid /\
  sale_items_seq db' = sale_items_seq db + Z.of_nat (length line_items) /\
  Forall (fun li => is_nan (li_quantity li) = false /\
                    is_nan (li_unit_price li) = false /\
                    is_nan (li_line_total li) = false) line_items.
Proof.
  unfold persist, insert_sale. intros H.
  destruct (is_nan total); [discriminate |]. simpl in H.
  destruct (persist_lines _ _ _) as [e | db2] eqn:Hlines; [discriminate |].
  injection H as <- <-.
  pose proof (persist_lines_all_numbers _ _ _ _ Hlines) as [Hnum Hseq].
  apply persist_lines_spec in Hlines as (_ & Hs & _). simpl in *.
  by rewrite Hs, Hseq.
Qed.

(** * The view *)

(** A request that is not answered by a redirect leaves the database as it
    was: the loop only reads, and a transaction that raises is not
    committed. *)
Lemma new_sale_unanswered (db db' : database) now_iso uid form r :
  new_sale db now_iso uid form = (r, db') ->
  (forall sid, r <> Redirect sid) ->
  db' = db.
Proof.
  unfold new_sale, commit. intros H Hr.
  repeat case_match; simplify_eq; try done. by edestruct Hr.
Qed.

(** The answer to a request that is turned down depends on the database and
    the form only. *)
Lemma new_sale_flash (db db' : database) now_iso uid form error :
  new_sale db now_iso uid form = (Flash error, db') ->
  exists line_items total, validate db form = LoopEnd (Some error) line_items total.
Proof.
  unfold new_sale, commit. intros H.
  repeat case_match; simplify_eq; eauto.
Qed.

(** What [new_sale] does, step by step, when it records a sale. *)
Lemma new_sale_redirect (db db' : database) now_iso uid form sid :
  new_sale db now_iso uid form = (Redirect sid, db') ->
  exists line_items total,
    validate db form = LoopEnd None line_items total /\
    persist db now_iso uid (form_customer_name form) line_items total = inr (sid, db').
Proof.
  unfold new_sale, commit. intros H.
  destruct (validate db form) as [[error |] line_items total | e]; try discriminate.
  destruct (persist _ _ _ _ _ _) as [e | [sid' db2]] eqn:Hpersist; [discriminate |].
  injection H as -> ->. by exists line_items, total.
Qed.

(** The line items of a sale that is recorded are sound. *)
Lemma recorded_line_items (db db' : database) now_iso uid form sid line_items total :
  validate db form = LoopEnd None line_items total ->
  persist db now_iso uid (form_customer_name form) line_items total = inr (sid, db') ->
  Forall sound_line line_items /\
  total = fold_left PrimFloat.add (map li_line_total line_items) 0%float /\
  map line_of line_items = entered_lines form /\
  Forall (fun li => exists row,
            meat_items db !! li_meat_item_id li = Some row /\
            li_name li = name row /\
            (stock_quantity row <? li_quantity li)%float = false) line_items.
Proof.
  unfold validate. intros Hloop Hpersist.
  pose proof (check_lines_checked _ _ _ _ _ _ _ _ _ _ Hloop)
    as (added & Hadded & Hchecked).
  apply check_lines_accepts in Hloop as (_ & added' & Hadded' & -> & Hprod & Hlines).
  simpl in Hadded, Hadded'. subst added added'.
  pose proof (persist_seqs _ _ _ _ _ _ _ _ Hpersist) as (_ & _ & Hnum).
  rewrite Forall_forall in Hchecked. rewrite Forall_forall in Hnum.
  rewrite Forall_forall in Hprod.
  repeat split; [| done |]; apply Forall_forall; intros li Hli;
    destruct (Hchecked li Hli) as (Hq & Hp & Hrow);
    destruct (Hnum li Hli) as (Hnq & Hnp & Hnt).
  - repeat split; [by apply number_above_zero | by apply number_not_below_zero
                  | by apply Hprod].
  - done.
Qed.

(** What a recorded sale leaves in the three tables. *)
Lemma new_sale_recorded (db db' : database) now_iso uid form sid :
  new_sale db now_iso uid form = (Redirect sid, db') ->
  exists rows,
    sales db' = sales db ++ [ {| sales_id := sid; sale_datetime := now_iso;
                                 user_id := uid;
                                 customer_name := or_None (form_customer_name form);
                                 total_amount := fsum (map row_product rows) |} ] /\
    sale_items db' = sale_items db ++ rows /\
    map row_line rows = map stored_line (entered_lines form) /\
    Forall (fun r => sale_id r = sid) rows /\
    Forall (fun r => line_total r = row_product r) rows /\
    is_nan (fsum (map row_product rows)) = false /\
    Forall (fun r => is_nan (line_total r) = false) rows /\
    fsum (map row_product rows) = fsum (map line_product (entered_lines form)) /\
    forall item, meat_items db' !! item =
      (fun row => set_stock row
                    (deduct_all (stock_quantity row) (quantities_of item rows)))
      <$> meat_items db !! item.
Proof.
  intros H.
  destruct (new_sale_redirect _ _ _ _ _ _ H) as (line_items & total & Hloop & Hpersist).
  destruct (recorded_line_items _ _ _ _ _ _ _ _ Hloop Hpersist)
    as (Hsound & -> & Hlines & _).
  apply persist_spec in Hpersist as (Htotal & _ & Hsales & Hrows & Hnum & Hstock).
  destruct (rows_of_products line_items (sale_items_seq db) sid Hsound) as [Hrp Hmap].
  pose proof (sound_line_terms _ Hsound) as Hterms.
  exists (rows_of (sale_items_seq db) sid line_items).
  rewrite Hsales, Hrows. unfold fsum.
  rewrite Hmap, fsum_sqlite_real, sqlite_real_total by done.
  rewrite rows_of_lines, Hlines by done.
  repeat split; [apply rows_of_sale | done | done | done | |].
  - by rewrite sound_line_products, Hlines.
  - intros item. rewrite Hstock, quantities_of_rows by done.
    destruct (meat_items db !! item) as [row |]; simpl; [| done].
    by rewrite stored_deduct_all_ordered.
Qed.

Lemma quantities_of_asked (item : Z) (rows : list sale_item) :
  quantities_of item rows = asked_in item (map row_line rows).
Proof.
  unfold quantities_of, asked_in.
  induction rows as [| r rows IH]; simpl; [done |].
  destruct (meat_item_id r =? item); simpl; by rewrite IH.
Qed.

Lemma asked_in_stored (item : Z) (lines : list (Z * float * float)) :
  asked_in item (map stored_line lines) = asked_in item lines.
Proof.
  unfold asked_in.
  induction lines as [| l lines IH]; simpl; [done |].
  destruct (fst (fst l) =? item); simpl; by rewrite IH.
Qed.

(** The stock of every item after a recorded sale. *)
Lemma new_sale_stock (db db' : database) now_iso uid form sid :
  new_sale db now_iso uid form = (Redirect sid, db') ->
  forall item, meat_items db' !! item =
    (fun row => set_stock row (deduct_all (stock_quantity row) (asked item form)))
    <$> meat_items db !! item.
Proof.
  intros H item.
  destruct (new_sale_recorded _ _ _ _ _ _ H)
    as (rows & _ & _ & Hlines & _ & _ & _ & _ & _ & Hstock).
  unfold asked. by rewrite Hstock, quantities_of_asked, Hlines, asked_in_stored.
Qed.

(** An item that no line of the form references keeps its row. *)
Lemma new_sale_other_items (db db' : database) now_iso uid form sid item :
  new_sale db now_iso uid form = (Redirect sid, db') ->
  asked item form = [] ->
  meat_items db' !! item = meat_items db !! item.
Proof.
  intros H Hnone. rewrite (new_sale_stock _ _ _ _ _ _ H), Hnone.
  destruct (meat_items db !! item); simpl; [| done]. by rewrite set_stock_same.
Qed.

(** An item that one line references has that line's quantity subtracted. *)
Lemma new_sale_single_line (db db' : database) now_iso uid form sid item qty row :
  new_sale db now_iso uid form = (Redirect sid, db') ->
  asked item form = [qty] ->
  meat_items db !! item = Some row ->
  meat_items db' !! item = Some (set_stock row (stock_quantity row - qty)%float).
Proof.
  intros H Hone Hrow. by rewrite (new_sale_stock _ _ _ _ _ _ H), Hone, Hrow.
Qed.

(** Selling 5 of 50 at 12.5: the sale of 62.5 is recorded and 45 are left. *)
Example sold_5_of_50_result :
  sold_5_of_50 =
  (Redirect 1,
   {| meat_items := {[ 1 := beef 45 ]};
      sales := [ {| sales_id := 1; sale_datetime := noon; user_id := 7;
                    customer_name := None; total_amount := 62.5 |} ];
      sales_seq := 1;
      sale_items := [ {| sale_items_id := 1; sale_id := 1; meat_item_id := 1;
                         quantity := 5; unit_price := 12.5; line_total := 62.5 |} ];
      sale_items_seq := 1 |}).
Proof. vm_compute. reflexivity. Qed.

(** Asking 50 of 45: the error names the item and nothing is written. *)
Example asked_50_of_45_result :
  asked_50_of_45 = (Flash (NotEnoughStock "Beef"), shop 45) /\
  message (NotEnoughStock "Beef") = "Not enough stock for Beef."%string.
Proof. split; vm_compute; reflexivity. Qed.

(** The transaction never answers with an error of the form: it either
    commits or raises, and what it raises is a constraint failure. *)
Lemma persist_lines_raises (line_items : list line_item) : forall db sid e,
  persist_lines db sid line_items = inl e -> e = IntegrityError.
Proof.
  induction line_items as [| li rest IH]; intros db sid e H; simpl in H;
    [discriminate |].
  unfold insert_sale_item in H. case_match; simpl in H; [congruence |].
  unfold deduct_stock in H at 1. simpl in H.
  repeat case_match; simpl in H; try congruence; eauto.
Qed.

Lemma commit_answer (db : database) now_iso uid customer line_items total :
  let (r, db') := commit db now_iso uid customer line_items total in
  (exists sid, r = Redirect sid) \/ (r = Raised IntegrityError /\ db' = db).
Proof.
  unfold commit, persist, insert_sale.
  destruct (is_nan total); simpl; [by right |].
  destruct (persist_lines _ _ _) as [e | db2] eqn:Hlines; simpl; [| eauto].
  apply persist_lines_raises in Hlines as ->. by right.
Qed.

(** * Schedules *)

Lemma turn_advance (w : world) (c : client) (s : session) (db : database) :
  advance (store w) (session_of w c) = (s, db) ->
  store (turn w c) = db /\
  session_of (turn w c) c = s /\
  session_of (turn w c) (other c) = session_of w (other c).
Proof.
  intros H. destruct c; unfold turn; simpl in *; by rewrite H.
Qed.

(** One request served to its answer, then the other. *)
Lemma run_one_after_the_other (w : world) (c : client) s1 s2 s3 s4 db1 db2 db3 db4 :
  advance (store w) (session_of w c) = (s1, db1) ->
  advance db1 s1 = (s2, db2) ->
  advance db2 (session_of w (other c)) = (s3, db3) ->
  advance db3 s3 = (s4, db4) ->
  let w' := run w (one_after_the_other c) in
  store w' = db4 /\ session_of w' c = s2 /\ session_of w' (other c) = s4.
Proof.
  intros H1 H2 H3 H4. unfold run, one_after_the_other. cbn [fold_left].
  assert (Hoo : other (other c) = c) by by destruct c.
  destruct (turn_advance w c _ _ H1) as (E1 & E1c & E1o).
  set (w1 := turn w c) in *.
  rewrite <- E1, <- E1c in H2.
  destruct (turn_advance w1 c _ _ H2) as (E2 & E2c & E2o).
  set (w2 := turn w1 c) in *.
  rewrite <- E2, <- E1o, <- E2o in H3.
  destruct (turn_advance w2 (other c) _ _ H3) as (E3 & E3c & E3o).
  set (w3 := turn w2 (other c)) in *.
  rewrite <- E3, <- E3c in H4.
  destruct (turn_advance w3 (other c) _ _ H4) as (E4 & E4c & E4o).
  set (w4 := turn w3 (other c)) in *.
  rewrite Hoo in E3o, E4o. simpl.
  repeat split; congruence.
Qed.

(** * One line of one item *)

Section OneLine.

Local Open Scope float_scope.

Variable db : database.
Variable item : Z.
Variable row : meat_item.
Variables qty price : float.
Variable customer : string.

Hypothesis Hrow : meat_items db !! item = Some row.
Hypothesis Hitem : sqlite_integer item = true.
Hypothesis Hqty : (qty <=? 0) = false.
Hypothesis Hprice : (price <? 0) = false.

Lemma validate_one_line_short :
  (stock_quantity row <? qty) = true ->
  validate db (line_form customer item qty price) =
  LoopEnd (Some (NotEnoughStock (name row))) [] 0.
Proof.
  intros Hshort. unfold validate. simpl.
  by rewrite Hqty, Hprice, Hitem, Hrow, Hshort.
Qed.

Lemma validate_one_line_enough :
  (stock_quantity row <? qty) = false ->
  validate db (line_form customer item qty price) =
  LoopEnd None
    [ {| li_meat_item_id := item; li_name := name row; li_quantity := qty;
         li_unit_price := price; li_line_total := qty * price |} ]
    (0 + qty * price).
Proof.
  intros Henough. unfold validate. simpl.
  by rewrite Hqty, Hprice, Hitem, Hrow, Henough.
Qed.

Lemma commit_one_line now_iso uid :
  is_nan qty = false ->
  is_nan (qty * price) = false ->
  is_nan (stock_quantity row - qty) = false ->
  exists db',
    commit db now_iso uid customer
      [ {| li_meat_item_id := item; li_name := name row; li_quantity := qty;
           li_unit_price := price; li_line_total := qty * price |} ]
      (0 + qty * price)
    = (Redirect (sales_seq db + 1)%Z, db') /\
    meat_items db' = <[item := set_stock row (stock_quantity row - qty)]> (meat_items db).
Proof.
  intros Hq Hprod Hdiff.
  unfold commit, persist, insert_sale.
  rewrite (add_zero_not_nan _ Hprod). simpl.
  unfold insert_sale_item. rewrite Hq, (mul_not_nan_r _ _ Hprod), Hprod. simpl.
  unfold deduct_stock. simpl. rewrite Hrow, Hdiff. simpl.
  rewrite sqlite_real_sub by (by apply number_above_zero). eauto.
Qed.

End OneLine.

(** * Two requests for the last of the stock *)

Section LastOfTheStock.

Variable item : Z.
Variable row : meat_item.
Variable qty : float.

Hypothesis Hitem : sqlite_integer item = true.
Hypothesis Hpos : (0 <? qty)%float = true.
Hypothesis Hfin : (qty <? infinity)%float = true.

(** The row of the item after [n] sales of [qty], when [qty] was in stock. *)
Local Abbreviation row_after n :=
  (set_stock row (deduct_all qty (repeat qty n))).

(** One step of a request, while the other request has been recorded [k]
    times (0 or 1): a request is checked against what is left, and a
    request that was checked is recorded whatever is left. *)
Lemma advance_one_line (db : database) (k : nat) (s : session) now_iso uid customer
    price :
  (k <= 1)%nat ->
  (price <? 0)%float = false ->
  is_nan (qty * price)%float = false ->
  meat_items db !! item = Some (row_after k) ->
  one_line_session (name row) now_iso uid customer item qty price s ->
  recorded s = 0%nat ->
  exists s' db',
    advance db s = (s', db') /\
    one_line_session (name row) now_iso uid customer item qty price s' /\
    meat_items db' !! item = Some (row_after (recorded s' + k)).
Proof.
  intros Hk Hprice Hprod Hrow Hs Hrec.
  pose proof (positive_not_le_zero _ Hpos) as Hle.
  pose proof (positive_not_nan _ Hpos) as Hq.
  pose proof (sub_self _ Hpos Hfin) as Hzero.
  pose proof (zero_sub_not_nan _ Hpos Hfin) as Hneg.
  destruct Hs as [-> | [-> | [[sid ->] | ->]]]; try discriminate.
  - (* validation *)
    destruct k as [| [| k]]; [| | lia]; simpl in Hrow.
    + eexists _, db. split; [| split].
      * unfold advance.
        rewrite (validate_one_line_enough db item _ qty price customer Hrow Hitem Hle
                   Hprice (ltb_irrefl qty)).
        reflexivity.
      * right. by left.
      * exact Hrow.
    + rewrite Hzero in Hrow.
      eexists _, db. split; [| split].
      * unfold advance.
        by rewrite (validate_one_line_short db item _ qty price customer Hrow Hitem Hle
                      Hprice Hpos).
      * by repeat right.
      * simpl. by rewrite Hzero.
  - (* commit *)
    assert (Hdiff : is_nan (stock_quantity (row_after k) - qty)%float = false).
    { destruct k as [| [| k]]; [| | lia]; simpl; by rewrite Hzero. }
    destruct (commit_one_line db item _ qty price customer Hrow Hle now_iso uid
                Hq Hprod Hdiff)
      as (db' & Hcommit & Hdb').
    eexists _, db'. split; [| split].
    + unfold advance. simpl in Hcommit. by rewrite Hcommit.
    + right. right. left. eauto.
    + rewrite Hdb', lookup_insert_eq.
      destruct k as [| [| k]]; [| | lia]; reflexivity.
  - (* turned down: nothing more happens *)
    eexists _, db. split; [reflexivity | split; [by repeat right | exact Hrow]].
Qed.

Variables price1 price2 : float.
Variables now1 now2 : string.
Variables uid1 uid2 : Z.
Variables customer1 customer2 : string.

Hypothesis Hprice1 : (price1 <? 0)%float = false.
Hypothesis Hprice2 : (price2 <? 0)%float = false.
Hypothesis Hprod1 : is_nan (qty * price1)%float = false.
Hypothesis Hprod2 : is_nan (qty * price2)%float = false.

(** What holds of the two requests and the stock at every moment. *)
Local Abbreviation in_step w :=
  (one_line_session (name row) now1 uid1 customer1 item qty price1 (first w) /\
   one_line_session (name row) now2 uid2 customer2 item qty price2 (second w) /\
   meat_items (store w) !! item
     = Some (row_after (recorded (first w) + recorded (second w)))).

Lemma recorded_le_1 (s : session) : (recorded s <= 1)%nat.
Proof. destruct s as [| | []]; simpl; lia. Qed.

Lemma turn_in_step (w : world) (c : client) : in_step w -> in_step (turn w c).
Proof.
  intros (H1 & H2 & Hrow).
  destruct c; unfold turn.
  - destruct (Nat.eq_dec (recorded (first w)) 0%nat) as [Hrec | Hrec].
    + rewrite Hrec in Hrow. simpl in Hrow.
      destruct (advance_one_line (store w) (recorded (second w)) (first w) now1 uid1
                  customer1 price1 (recorded_le_1 _) Hprice1 Hprod1 Hrow H1 Hrec)
        as (s' & db' & -> & Hs' & Hrow').
      by simpl.
    + destruct (first w) as [| | [sid | |]] eqn:Hfirst; simpl in Hrec; done.
  - destruct (Nat.eq_dec (recorded (second w)) 0%nat) as [Hrec | Hrec].
    + rewrite Hrec, Nat.add_0_r in Hrow.
      destruct (advance_one_line (store w) (recorded (first w)) (second w) now2 uid2
                  customer2 price2 (recorded_le_1 _) Hprice2 Hprod2 Hrow H2 Hrec)
        as (s' & db' & -> & Hs' & Hrow').
      simpl. by rewrite (Nat.add_comm (recorded (first w))).
    + destruct (second w) as [| | [sid | |]] eqn:Hsecond; simpl in Hrec; done.
Qed.

Lemma run_in_step (schedule : list client) : forall w, in_step w -> in_step (run w schedule).
Proof.
  induction schedule as [| c schedule IH]; intros w Hw; [done |].
  apply IH, turn_in_step, Hw.
Qed.

End LastOfTheStock.

(** * The claims *)

(** C3.  Whenever [new_sale] answers with an error (any of the five
    messages), the database after the call is the database before it: no
    row of [sales] or [sale_items] is added and no stock changes. *)
Theorem error_leaves_database (db db' : database) now_iso uid form error :
  new_sale db now_iso uid form = (Flash error, db') ->
  db' = db.
Proof.
  intros H. by apply (new_sale_unanswered _ _ _ _ _ _ H).
Qed.

Lemma error_leaves_database_witness : snd asked_50_of_45 = shop 45.
Proof.
  apply (error_leaves_database (shop 45) (snd asked_50_of_45) noon 7
           (one_line 1 50 12.5) (NotEnoughStock "Beef")).
  vm_compute. reflexivity.
Defined.

(** C4.  A sale that is recorded adds one row to [sales] and the rows of
    its lines to [sale_items]; these rows are the lines the form asked for
    (the price as the [REAL] column gives it back: negative zero as 0.0),
    each stores as [line_total] the product of its own [quantity] and
    [unit_price], and the [total_amount] of the sale is the sum of these
    products (taken in line order from 0.0, as binary64 values), which is
    also the sum of the products of the quantities and prices the form
    asked for.  The stored values are the very values of the products and
    of their sum, and being numbers they also compare equal to them. *)
Theorem sale_total_is_sum_of_lines (db db' : database) now_iso uid form sid :
  new_sale db now_iso uid form = (Redirect sid, db') ->
  exists header rows,
    sales db' = sales db ++ [header] /\
    sales_id header = sid /\
    sale_items db' = sale_items db ++ rows /\
    map row_line rows = map stored_line (entered_lines form) /\
    Forall (fun r => sale_id r = sid /\
                     line_total r = (quantity r * unit_price r)%float /\
                     (line_total r =? quantity r * unit_price r)%float = true) rows /\
    total_amount header =
      fsum (map (fun r => (quantity r * unit_price r)%float) rows) /\
    (total_amount header =?
      fsum (map (fun r => (quantity r * unit_price r)%float) rows))%float = true /\
    total_amount header = fsum (map line_product (entered_lines form)).
Proof.
  intros H.
  destruct (new_sale_recorded _ _ _ _ _ _ H)
    as (rows & Hsales & Hrows & Hlines & Hsid & Hprod & Htotal & Hnum & Hform & _).
  eexists _, rows. repeat split; try eassumption; try reflexivity.
  - rewrite Forall_forall in *. intros r Hr.
    repeat split; [by apply Hsid | by apply Hprod |].
    pose proof (Hprod r Hr) as Hr'. unfold row_product in Hr'.
    rewrite <- Hr'. by apply not_nan_eqb, Hnum.
  - by apply not_nan_eqb.
Qed.

Lemma sale_total_is_sum_of_lines_witness :
  exists header rows,
    sales (snd sold_5_of_50) = sales (shop 50) ++ [header] /\
    sales_id header = 1 /\
    sale_items (snd sold_5_of_50) = sale_items (shop 50) ++ rows /\
    map row_line rows = map stored_line (entered_lines (one_line 1 5 12.5)) /\
    Forall (fun r => sale_id r = 1 /\
                     line_total r = (quantity r * unit_price r)%float /\
                     (line_total r =? quantity r * unit_price r)%float = true) rows /\
    total_amount header =
      fsum (map (fun r => (quantity r * unit_price r)%float) rows) /\
    (total_amount header =?
      fsum (map (fun r => (quantity r * unit_price r)%float) rows))%float = true /\
    total_amount header = fsum (map line_product (entered_lines (one_line 1 5 12.5))).
Proof.
  apply (sale_total_is_sum_of_lines (shop 50) (snd sold_5_of_50) noon 7
           (one_line 1 5 12.5) 1).
  vm_compute. reflexivity.
Defined.

(** A price of negative zero: the row holds 0.0 for the price and for the
    line total, and not the negative zero that was asked and multiplied. *)
Example negative_zero_price_is_stored_as_zero :
  exists db' r,
    new_sale (shop 50) noon 7 (one_line 1 5 (-0)) = (Redirect 1, db') /\
    sale_items db' = [r] /\
    (1 / unit_price r =? infinity)%float = true /\
    (1 / line_total r =? infinity)%float = true /\
    (1 / (5 * -0) =? neg_infinity)%float = true.
Proof.
  eexists _, _. repeat split; vm_compute; reflexivity.
Qed.

(** C8.  A form without any [item_id] field is answered with the error
    [At least one item is required.] and the database is left as it was,
    whatever else the form holds. *)
Theorem empty_order_is_rejected (db : database) now_iso uid form :
  form_item_id form = [] ->
  new_sale db now_iso uid form = (Flash AtLeastOneItem, db) /\
  message AtLeastOneItem = "At least one item is required."%string.
Proof.
  intros Hnone. split; [| reflexivity].
  unfold new_sale, validate. by rewrite Hnone.
Qed.

Lemma empty_order_is_rejected_witness :
  new_sale (shop 50) noon 7 empty_form = (Flash AtLeastOneItem, shop 50) /\
  message AtLeastOneItem = "At least one item is required."%string.
Proof.
  apply (empty_order_is_rejected (shop 50) noon 7 empty_form). reflexivity.
Defined.

(** C9.  A request that was turned down with an error, sent again
    unchanged to the database the first attempt left, is turned down with
    the same error, at whatever time it is sent again. *)
Theorem rejection_repeats (db db' : database) now_iso uid form error :
  new_sale db now_iso uid form = (Flash error, db') ->
  forall later, new_sale db' later uid form = (Flash error, db').
Proof.
  intros H later.
  assert (db' = db) as -> by by apply (new_sale_unanswered _ _ _ _ _ _ H).
  destruct (new_sale_flash _ _ _ _ _ _ H) as (line_items & total & Hloop).
  unfold new_sale. by rewrite Hloop.
Qed.

Lemma rejection_repeats_witness :
  new_sale (snd asked_50_of_45) "2024-05-01T12:05:00" 7 (one_line 1 50 12.5)
  = (Flash (NotEnoughStock "Beef"), snd asked_50_of_45).
Proof.
  apply (rejection_repeats (shop 45) (snd asked_50_of_45) noon 7
           (one_line 1 50 12.5) (NotEnoughStock "Beef")).
  vm_compute. reflexivity.
Defined.

(** C10.  A form whose [item_id] fields are all empty, and that has at
    least one, is not turned down: every line is passed over and the sale
    is recorded with [total_amount] 0.0, without any row in [sale_items]
    and without any change of stock. *)
Theorem blank_lines_record_an_empty_sale (db : database) now_iso uid form :
  form_item_id form <> [] ->
  Forall (eq IdEmpty) (form_item_id form) ->
  new_sale db now_iso uid form =
  (Redirect (sales_seq db + 1),
   {| meat_items := meat_items db;
      sales := sales db ++ [ {| sales_id := sales_seq db + 1;
                                sale_datetime := now_iso; user_id := uid;
                                customer_name := or_None (form_customer_name form);
                                total_amount := 0 |} ];
      sales_seq := sales_seq db + 1;
      sale_items := sale_items db;
      sale_items_seq := sale_items_seq db |}).
Proof.
  intros Hne Hblank. unfold new_sale, validate.
  rewrite check_lines_blank by done.
  destruct (form_item_id form); [done | reflexivity].
Qed.

Lemma blank_lines_record_an_empty_sale_witness :
  new_sale (shop 50) noon 7 blank_form =
  (Redirect (sales_seq (shop 50) + 1),
   {| meat_items := meat_items (shop 50);
      sales := sales (shop 50) ++
               [ {| sales_id := sales_seq (shop 50) + 1;
                    sale_datetime := noon; user_id := 7;
                    customer_name := or_None (form_customer_name blank_form);
                    total_amount := 0 |} ];
      sales_seq := sales_seq (shop 50) + 1;
      sale_items := sale_items (shop 50);
      sale_items_seq := sale_items_seq (shop 50) |}).
Proof.
  apply (blank_lines_record_an_empty_sale (shop 50) noon 7 blank_form).
  - simpl. discriminate.
  - simpl. repeat constructor.
Defined.

(** C5, as the code has it.  After a recorded sale no item appears or
    disappears, and the row of every item is the row before with only
    [stock_quantity] changed: to the stock before with the quantity of each
    line that references the item subtracted from it, line after line in
    the order of the form.  So an item that no line references keeps its
    row, and an item that one line references has exactly that quantity
    subtracted. *)
Theorem sale_deducts_line_by_line (db db' : database) now_iso uid form sid :
  new_sale db now_iso uid form = (Redirect sid, db') ->
  forall item,
    match meat_items db !! item with
    | None => meat_items db' !! item = None
    | Some row =>
        exists row',
          meat_items db' !! item = Some row' /\
          name row' = name row /\
          unit_label row' = unit_label row /\
          price_per_unit row' = price_per_unit row /\
          stock_quantity row' = deduct_all (stock_quantity row) (asked item form) /\
          (asked item form = [] -> row' = row) /\
          (forall qty, asked item form = [qty] ->
             stock_quantity row' = (stock_quantity row - qty)%float)
    end.
Proof.
  intros H item. rewrite (new_sale_stock _ _ _ _ _ _ H).
  destruct (meat_items db !! item) as [row |]; simpl; [| done].
  eexists. repeat split.
  - intros ->. apply set_stock_same.
  - by intros qty ->.
Qed.

Lemma sale_deducts_line_by_line_witness :
  match meat_items (shop 50) !! 1 with
  | None => meat_items (snd sold_5_of_50) !! 1 = None
  | Some row =>
      exists row',
        meat_items (snd sold_5_of_50) !! 1 = Some row' /\
        name row' = name row /\
        unit_label row' = unit_label row /\
        price_per_unit row' = price_per_unit row /\
        stock_quantity row' =
          deduct_all (stock_quantity row) (asked 1 (one_line 1 5 12.5)) /\
        (asked 1 (one_line 1 5 12.5) = [] -> row' = row) /\
        (forall qty, asked 1 (one_line 1 5 12.5) = [qty] ->
           stock_quantity row' = (stock_quantity row - qty)%float)
  end.
Proof.
  apply (sale_deducts_line_by_line (shop 50) (snd sold_5_of_50) noon 7
           (one_line 1 5 12.5) 1).
  vm_compute. reflexivity.
Defined.

(** C5, as the claim has it, fails: with two lines of 0.1 and 0.2 of the
    same item the stock of 50 becomes (50 - 0.1) - 0.2, which is not 50 less
    the sum 0.1 + 0.2; nor is the difference between the stock before and
    the stock after that sum. *)
Lemma two_lines_are_not_deducted_as_their_sum :
  fst sold_tenth_and_fifth_of_50 = Redirect 1 /\
  asked 1 (two_lines 1 0.1 0.2 12.5) = [0.1; 0.2]%float /\
  stock_of (snd sold_tenth_and_fifth_of_50) 1 = Some (50 - 0.1 - 0.2)%float /\
  (50 - 0.1 - 0.2 =? 50 - fsum [0.1; 0.2])%float = false /\
  (50 - (50 - 0.1 - 0.2) =? fsum [0.1; 0.2])%float = false /\
  stock_of (snd sold_tenth_and_fifth_of_50) 1 <> Some (50 - fsum [0.1; 0.2])%float.
Proof.
  repeat split; try (vm_compute; reflexivity).
  intros H. apply (f_equal (fun o => match o with
                                     | Some s => (s =? 50 - fsum [0.1; 0.2])%float
                                     | None => false
                                     end)) in H.
  vm_compute in H. discriminate H.
Qed.

(** C1, at the input where the code breaks it.  Five kilograms are in
    stock and the form has two lines of three kilograms of that item: each
    line alone is within the stock, the sale is recorded, and the stock is
    left at -1. *)
Theorem two_lines_oversell :
  stock_of (shop 5) 1 = Some 5%float /\
  (0 <=? 5)%float = true /\
  entered_lines (two_lines 1 3 3 12.5) = [(1, 3%float, 12.5%float); (1, 3%float, 12.5%float)] /\
  (5 <? 3)%float = false /\
  fst sold_3_and_3_of_5 = Redirect 1 /\
  stock_of (snd sold_3_and_3_of_5) 1 = Some (-1)%float /\
  (-1 <? 0)%float = true.
Proof. repeat split; vm_compute; reflexivity. Qed.

(** C2, at the input where the code breaks it.  A request for 50
    kilograms is validated while 50 are in stock; before it is committed
    another sale of 5 is recorded, and 45 are left.  The commit of the
    first request then meets no check: its [UPDATE] has no stock condition
    and does not fail, the sale is recorded, and the stock is left at -5.
    The same is seen on the two requests served together, the one for 50
    validated first and committed last. *)
Theorem stale_check_is_committed :
  checked_50_of_50 =
    Checked noon 7 ""
      [ {| li_meat_item_id := 1; li_name := "Beef"; li_quantity := 50;
           li_unit_price := 12.5; li_line_total := 625 |} ] 625 /\
  fst (advance (shop 45) checked_50_of_50) = Answered (Redirect 1) /\
  stock_of (snd (advance (shop 45) checked_50_of_50)) 1 = Some (-5)%float /\
  (exists db', deduct_stock (shop 45) 50 1 = inr db' /\
               stock_of db' 1 = Some (-5)%float) /\
  (-5 <? 0)%float = true /\
  first (run fifty_and_five [First; Second; Second; First]) = Answered (Redirect 2) /\
  second (run fifty_and_five [First; Second; Second; First]) = Answered (Redirect 1) /\
  stock_of (store (run fifty_and_five [First; Second; Second; First])) 1
    = Some (-5)%float.
Proof.
  repeat split; try (vm_compute; reflexivity).
  eexists. split; vm_compute; reflexivity.
Qed.

(** C6, at the input where the code breaks it.  Two cashiers each ask the
    last 5 kilograms of an item.  When both requests are validated before
    either is committed, both pass the stock check, both sales are
    recorded, and the stock is left at -5. *)
Theorem both_cashiers_sell_the_last_5 :
  stock_of (store (two_cashiers 5 5)) 1 = Some 5%float /\
  first (run (two_cashiers 5 5) (interleaved First)) = Answered (Redirect 1) /\
  second (run (two_cashiers 5 5) (interleaved First)) = Answered (Redirect 2) /\
  stock_of (store (run (two_cashiers 5 5) (interleaved First))) 1 = Some (-5)%float /\
  (-5 <? 0)%float = true.
Proof. repeat split; vm_compute; reflexivity. Qed.

(** C7, as the code has it.  When the lines before it pass the loop and a
    line with a numeric quantity above zero and a numeric price not below
    zero names an item in the catalog of which less is in stock than the
    line asks, the request is answered with the error
    [Not enough stock for <name>.], which carries the name of the item and
    nothing else, and the database is left as it was. *)
Theorem short_stock_is_rejected (db : database) now_iso uid form
    (prefix rest : list id_field) (item : Z) (qty price : float) (row : meat_item)
    line_items total :
  form_item_id form = prefix ++ IdText (Some item) :: rest ->
  check_lines db (form_quantity form) (form_unit_price form) 0 prefix None [] 0%float
    = LoopEnd None line_items total ->
  form_quantity form !! length prefix = Some (Some qty) ->
  form_unit_price form !! length prefix = Some (Some price) ->
  (qty <=? 0)%float = false ->
  (price <? 0)%float = false ->
  sqlite_integer item = true ->
  meat_items db !! item = Some row ->
  (stock_quantity row <? qty)%float = true ->
  new_sale db now_iso uid form = (Flash (NotEnoughStock (name row)), db) /\
  message (NotEnoughStock (name row)) =
    String.append "Not enough stock for " (String.append (name row) ".").
Proof.
  intros Hids Hprefix Hq Hp Hqty Hprice Hitem Hrow Hshort.
  split; [| reflexivity].
  unfold new_sale, validate. rewrite Hids.
  rewrite (check_lines_app _ _ _ _ _ _ _ _ _ _ _ Hprefix).
  simpl. by rewrite Hq, Hp, Hqty, Hprice, Hitem, Hrow, Hshort.
Qed.

Lemma short_stock_is_rejected_witness :
  new_sale (shop 45) noon 7 asked_5_and_50_of_45
    = (Flash (NotEnoughStock (name (beef 45))), shop 45) /\
  message (NotEnoughStock (name (beef 45))) =
    String.append "Not enough stock for " (String.append (name (beef 45)) ".").
Proof.
  apply (short_stock_is_rejected (shop 45) noon 7 asked_5_and_50_of_45
           [IdText (Some 1)] [] 1 50 12.5 (beef 45)
           [ {| li_meat_item_id := 1; li_name := "Beef"; li_quantity := 5;
                li_unit_price := 12.5; li_line_total := 62.5 |} ] 62.5);
    vm_compute; reflexivity.
Defined.

(** C7, as the claim has it, fails: the error does not tell the quantity
    asked or the stock available.  Asking 50 of 45 and asking 20 of 10 are
    answered with the same error and the same text; and a line that asks
    more than the stock at a negative price is answered with the error
    about quantity and price instead. *)
Lemma error_tells_neither_quantity_nor_stock :
  fst (new_sale (shop 45) noon 7 (one_line 1 50 12.5)) = Flash (NotEnoughStock "Beef") /\
  fst (new_sale (shop 10) noon 7 (one_line 1 20 12.5)) = Flash (NotEnoughStock "Beef") /\
  message (NotEnoughStock "Beef") = "Not enough stock for Beef."%string /\
  (50 =? 20)%float = false /\
  (45 =? 10)%float = false /\
  (45 <? 50)%float = true /\
  new_sale (shop 45) noon 7 (one_line 1 50 (-1)) = (Flash QuantityPriceRange, shop 45).
Proof. repeat split; vm_compute; reflexivity. Qed.

(** * Further properties of the sale engine *)

(** X1.  The first line that fails decides: when a form with at least one
    line is turned down with an error, the same form with any lines added
    after it is turned down with the same error. *)
Theorem rejection_ignores_later_lines (db : database) now_iso uid form
    (more : list id_field) (error : sale_error) :
  form_item_id form <> [] ->
  new_sale db now_iso uid form = (Flash error, db) ->
  new_sale db now_iso uid
    {| form_customer_name := form_customer_name form;
       form_item_id := form_item_id form ++ more;
       form_quantity := form_quantity form;
       form_unit_price := form_unit_price form |}
  = (Flash error, db).
Proof.
  intros Hne H.
  destruct (new_sale_flash _ _ _ _ _ _ H) as (line_items & total & Hloop).
  unfold new_sale, validate in *. simpl.
  destruct (form_item_id form) as [| item_id rest] eqn:Hids; [done |].
  change (error0 ((item_id :: rest) ++ more)) with (@None sale_error).
  simpl error0 in Hloop.
  rewrite check_lines_stops; [by rewrite Hloop |].
  intros li tot. by rewrite Hloop.
Qed.

Lemma rejection_ignores_later_lines_witness :
  new_sale (shop 45) noon 7
    {| form_customer_name := form_customer_name (one_line 1 50 12.5);
       form_item_id := form_item_id (one_line 1 50 12.5) ++ [IdText None; IdEmpty];
       form_quantity := form_quantity (one_line 1 50 12.5);
       form_unit_price := form_unit_price (one_line 1 50 12.5) |}
  = (Flash (NotEnoughStock "Beef"), shop 45).
Proof.
  apply (rejection_ignores_later_lines (shop 45) noon 7 (one_line 1 50 12.5)
           [IdText None; IdEmpty] (NotEnoughStock "Beef")).
  - simpl. discriminate.
  - vm_compute. reflexivity.
Defined.

(** X2.  Every line of a recorded sale has a quantity above zero, a price
    not below zero and a line total that is a number, and names an item of
    the catalog of which, before the sale, no less was in stock than the
    line asks. *)
Theorem recorded_lines_are_valid (db db' : database) now_iso uid form sid :
  new_sale db now_iso uid form = (Redirect sid, db') ->
  exists rows,
    sale_items db' = sale_items db ++ rows /\
    Forall (fun r =>
              (0 <? quantity r)%float = true /\
              (0 <=? unit_price r)%float = true /\
              is_nan (line_total r) = false /\
              exists row,
                meat_items db !! meat_item_id r = Some row /\
                (stock_quantity row <? quantity r)%float = false) rows.
Proof.
  intros H.
  destruct (new_sale_redirect _ _ _ _ _ _ H) as (line_items & total & Hloop & Hpersist).
  destruct (recorded_line_items _ _ _ _ _ _ _ _ Hloop Hpersist)
    as (Hsound & _ & _ & Hchecked).
  pose proof (persist_seqs _ _ _ _ _ _ _ _ Hpersist) as (_ & _ & Hnum).
  apply persist_spec in Hpersist as (_ & _ & _ & Hrows & _ & _).
  eexists. split; [exact Hrows |].
  rewrite Forall_forall in Hchecked. rewrite Forall_forall in Hnum.
  rewrite Forall_forall in Hsound.
  apply Forall_forall. intros r Hr.
  apply rows_of_elem in Hr
    as (_ & _ & li & Hli & Hitem & Hqty & Hprice & Htotal).
  destruct (Hchecked li Hli) as (row & Hrow & _ & Hstock).
  destruct (Hsound li Hli) as (Hq & Hp & _).
  destruct (Hnum li Hli) as (_ & _ & Hnt).
  rewrite Hitem, Hqty, Hprice, Htotal.
  rewrite !ltb_sqlite_real_r, leb_sqlite_real_r, is_nan_sqlite_real.
  split; [done |]. split; [done |]. split; [done |].
  exists row. by rewrite ltb_sqlite_real_r.
Qed.

Lemma recorded_lines_are_valid_witness :
  exists rows,
    sale_items (snd sold_5_of_50) = sale_items (shop 50) ++ rows /\
    Forall (fun r =>
              (0 <? quantity r)%float = true /\
              (0 <=? unit_price r)%float = true /\
              is_nan (line_total r) = false /\
              exists row,
                meat_items (shop 50) !! meat_item_id r = Some row /\
                (stock_quantity row <? quantity r)%float = false) rows.
Proof.
  apply (recorded_lines_are_valid (shop 50) (snd sold_5_of_50) noon 7
           (one_line 1 5 12.5) 1).
  vm_compute. reflexivity.
Defined.

(** X3.  [new_sale] keeps the ids of the ledger sound, whatever the form
    and however the request ends: no id above its counter, no id given
    twice, and every row of [sale_items] under a row of [sales], although
    SQLite is not asked to enforce the foreign key. *)
Theorem new_sale_keeps_ledger_sound (db : database) now_iso uid form :
  ledger_sound db ->
  ledger_sound (snd (new_sale db now_iso uid form)).
Proof.
  intros (Hs & Hsd & Hi & Hid & Href).
  destruct (new_sale db now_iso uid form) as [r db'] eqn:H.
  destruct r as [sid | error | e]; simpl.
  2, 3: by rewrite (new_sale_unanswered _ _ _ _ _ _ H).
  destruct (new_sale_redirect _ _ _ _ _ _ H) as (line_items & total & _ & Hpersist).
  pose proof (persist_seqs _ _ _ _ _ _ _ _ Hpersist) as (Hseq & Hiseq & _).
  apply persist_spec in Hpersist as (_ & Hsid & Hsales & Hrows & _ & _).
  unfold ledger_sound. rewrite Hsales, Hrows, Hseq, Hiseq, !fmap_app.
  rewrite Forall_forall in Hs. rewrite Forall_forall in Hi.
  rewrite Forall_forall in Href.
  assert (Hfresh : sid ∉ sales_id <$> sales db).
  { intros Hin. apply list_elem_of_fmap in Hin as (s & -> & Hin).
    apply Hs in Hin. lia. }
  repeat split.
  - apply Forall_app. split.
    + apply Forall_forall. intros s Hin. pose proof (Hs s Hin). lia.
    + repeat constructor. simpl. lia.
  - apply NoDup_app. repeat split; [done | | apply NoDup_singleton].
    intros x Hx Hx'. apply list_elem_of_singleton in Hx'. simpl in Hx'. by subst.
  - apply Forall_app. split.
    + apply Forall_forall. intros r Hin. pose proof (Hi r Hin). lia.
    + apply Forall_forall. intros r Hin.
      apply rows_of_elem in Hin as (_ & Hrange & _). lia.
  - apply NoDup_app. repeat split; [done | | apply rows_of_ids].
    intros x Hx Hx'.
    apply list_elem_of_fmap in Hx as (r & -> & Hr).
    apply list_elem_of_fmap in Hx' as (r' & Heq & Hr').
    apply Hi in Hr.
    apply rows_of_elem in Hr' as (_ & Hrange & _). lia.
  - apply Forall_app. split.
    + apply Forall_forall. intros r Hin. apply elem_of_app. left. by apply Href.
    + apply Forall_forall. intros r Hin.
      apply rows_of_elem in Hin as (-> & _).
      apply elem_of_app. right. simpl. by left.
Qed.

Lemma new_sale_keeps_ledger_sound_witness :
  ledger_sound (snd (new_sale (shop 50) noon 7 (two_lines 1 3 3 12.5))).
Proof.
  apply (new_sale_keeps_ledger_sound (shop 50) noon 7 (two_lines 1 3 3 12.5)).
  repeat split; constructor.
Defined.

(** X4.  A line that is filled in but has no quantity field or no price
    field at its position (the lines before it passing) ends the request
    with an [IndexError] that the view does not catch; nothing is written. *)
Theorem missing_field_raises (db : database) now_iso uid form
    (prefix rest : list id_field) (parsed : option Z) line_items total :
  form_item_id form = prefix ++ IdText parsed :: rest ->
  check_lines db (form_quantity form) (form_unit_price form) 0 prefix None [] 0%float
    = LoopEnd None line_items total ->
  form_quantity form !! length prefix = @None (option float) \/
  form_unit_price form !! length prefix = @None (option float) ->
  new_sale db now_iso uid form = (Raised IndexError, db).
Proof.
  intros Hids Hprefix Hmissing.
  unfold new_sale, validate. rewrite Hids.
  rewrite (check_lines_app _ _ _ _ _ _ _ _ _ _ _ Hprefix). simpl.
  destruct Hmissing as [Hq | Hp]; [by rewrite Hq |].
  destruct (form_quantity form !! length prefix); [| done]. by rewrite Hp.
Qed.

Lemma missing_field_raises_witness :
  new_sale (shop 50) noon 7
    {| form_customer_name := ""; form_item_id := [IdText (Some 1); IdText (Some 1)];
       form_quantity := [Some 5%float]; form_unit_price := [Some 12.5%float; Some 12.5%float] |}
  = (Raised IndexError, shop 50).
Proof.
  apply (missing_field_raises (shop 50) noon 7 _ [IdText (Some 1)] [] (Some 1)
           [ {| li_meat_item_id := 1; li_name := "Beef"; li_quantity := 5;
                li_unit_price := 12.5; li_line_total := 62.5 |} ] 62.5).
  - reflexivity.
  - vm_compute. reflexivity.
  - left. reflexivity.
Defined.

(** X5.  The text of [item_id] is read as an integer only after the line's
    numbers have been checked, and outside the [try]: a line with a
    quantity above zero and a price not below zero whose [item_id] is not
    an integer (the lines before it passing) ends the request with a
    [ValueError], not with the error [Invalid meat item.]; nothing is
    written. *)
Theorem unreadable_item_id_raises (db : database) now_iso uid form
    (prefix rest : list id_field) (qty price : float) line_items total :
  form_item_id form = prefix ++ IdText None :: rest ->
  check_lines db (form_quantity form) (form_unit_price form) 0 prefix None [] 0%float
    = LoopEnd None line_items total ->
  form_quantity form !! length prefix = Some (Some qty) ->
  form_unit_price form !! length prefix = Some (Some price) ->
  (qty <=? 0)%float = false ->
  (price <? 0)%float = false ->
  new_sale db now_iso uid form = (Raised ValueError, db).
Proof.
  intros Hids Hprefix Hq Hp Hqty Hprice.
  unfold new_sale, validate. rewrite Hids.
  rewrite (check_lines_app _ _ _ _ _ _ _ _ _ _ _ Hprefix). simpl.
  by rewrite Hq, Hp, Hqty, Hprice.
Qed.

Lemma unreadable_item_id_raises_witness :
  new_sale (shop 50) noon 7
    {| form_customer_name := ""; form_item_id := [IdText None];
       form_quantity := [Some 5%float]; form_unit_price := [Some 12.5%float] |}
  = (Raised ValueError, shop 50).
Proof.
  apply (unreadable_item_id_raises (shop 50) noon 7 _ [] [] 5 12.5 [] 0);
    reflexivity.
Defined.

(** * Further properties of two requests at once *)






(** X20.  The same two requests, in whatever order their steps are served.
    When one is served from its validation to its answer before the other
    is validated, the first is recorded, the other is turned down with the
    not-enough-stock error, and the stock is left at 0.  And however the
    steps of the two requests are ordered, the stock is at every moment
    the stock at the start with [qty] subtracted once for each of the two
    requests that has been recorded: no decrement is lost. *)
Theorem last_of_the_stock (db : database) (item : Z) (row : meat_item)
    (qty price1 price2 : float) now1 now2 uid1 uid2 customer1 customer2 :
  meat_items db !! item = Some row ->
  stock_quantity row = qty ->
  sqlite_integer item = true ->
  (0 <? qty)%float = true ->
  (qty <? infinity)%float = true ->
  (0 <=? price1)%float = true ->
  (0 <=? price2)%float = true ->
  let w0 := {| store := db;
               first := Posted now1 uid1 (line_form customer1 item qty price1);
               second := Posted now2 uid2 (line_form customer2 item qty price2) |} in
  (forall c,
     let w := run w0 (one_after_the_other c) in
     session_of w c = Answered (Redirect (sales_seq db + 1)) /\
     session_of w (other c) = Answered (Flash (NotEnoughStock (name row))) /\
     stock_of (store w) item = Some 0%float) /\
  (forall schedule,
     let w := run w0 schedule in
     stock_of (store w) item =
     Some (deduct_all qty (repeat qty (recorded (first w) + recorded (second w))))).
Proof.
  intros Hrow Hstock Hitem Hpos Hfin Hprice1 Hprice2 w0.
  destruct (not_below_zero_number _ Hprice1) as [_ Hp1].
  destruct (not_below_zero_number _ Hprice2) as [_ Hp2].
  pose proof (mul_number _ _ Hpos Hfin Hprice1) as Hn1.
  pose proof (mul_number _ _ Hpos Hfin Hprice2) as Hn2.
  assert (Hstart :
    one_line_session (name row) now1 uid1 customer1 item qty price1 (first w0) /\
    one_line_session (name row) now2 uid2 customer2 item qty price2 (second w0) /\
    meat_items (store w0) !! item
      = Some (set_stock row (deduct_all qty
                (repeat qty (recorded (first w0) + recorded (second w0)))))).
  { repeat split; [by left | by left |].
    simpl. by rewrite Hrow, <- Hstock, set_stock_same. }
  assert (Hany : forall schedule,
    let w := run w0 schedule in
    one_line_session (name row) now1 uid1 customer1 item qty price1 (first w) /\
    one_line_session (name row) now2 uid2 customer2 item qty price2 (second w) /\
    meat_items (store w) !! item
      = Some (set_stock row (deduct_all qty
                (repeat qty (recorded (first w) + recorded (second w)))))).
  { intros schedule.
    exact (run_in_step item row qty Hitem Hpos Hfin price1 price2 now1 now2 uid1 uid2
             customer1 customer2 Hp1 Hp2 Hn1 Hn2 schedule w0 Hstart). }
  split.
  - intros c.
    pose proof (positive_not_le_zero _ Hpos) as Hle.
    pose proof (positive_not_nan _ Hpos) as Hq.
    pose proof (sub_self _ Hpos Hfin) as Hzero.
    assert (Henough : (stock_quantity row <? qty)%float = false)
      by (rewrite Hstock; apply ltb_irrefl).
    assert (Hdiff : is_nan (stock_quantity row - qty)%float = false)
      by (by rewrite Hstock, Hzero).
    assert (Hserved : forall now_iso uid customer price,
      (price <? 0)%float = false -> is_nan (qty * price)%float = false ->
      exists checked db1,
        advance db (Posted now_iso uid (line_form customer item qty price))
          = (checked, db) /\
        advance db checked = (Answered (Redirect (sales_seq db + 1)), db1) /\
        stock_of db1 item = Some 0%float /\
        forall now_iso' uid' customer' price', (price' <? 0)%float = false ->
          advance db1 (Posted now_iso' uid' (line_form customer' item qty price')) =
          (Answered (Flash (NotEnoughStock (name row))), db1)).
    { intros now_iso uid customer price Hp Hn.
      destruct (commit_one_line db item row qty price customer Hrow Hle now_iso uid
                  Hq Hn Hdiff)
        as (db1 & Hcommit & Hdb1).
      assert (Hrow1 : meat_items db1 !! item = Some (set_stock row 0%float))
        by (by rewrite Hdb1, lookup_insert_eq, Hstock, Hzero).
      exists (Checked now_iso uid customer
                [ {| li_meat_item_id := item; li_name := name row; li_quantity := qty;
                     li_unit_price := price; li_line_total := (qty * price)%float |} ]
                (0 + qty * price)%float), db1.
      repeat split.
      - unfold advance.
        by rewrite (validate_one_line_enough db item row qty price customer Hrow Hitem
                      Hle Hp Henough).
      - unfold advance. by rewrite Hcommit.
      - unfold stock_of. by rewrite Hrow1.
      - intros now_iso' uid' customer' price' Hp'. unfold advance.
        by rewrite (validate_one_line_short db1 item (set_stock row 0%float) qty price'
                      customer'). }
    destruct c.
    + destruct (Hserved now1 uid1 customer1 price1 Hp1 Hn1)
        as (checked & db1 & H1 & H2 & H3 & H4).
      destruct (run_one_after_the_other w0 First _ _ _ _ _ _ _ _
                  H1 H2 (H4 _ _ _ _ Hp2) eq_refl) as (E1 & E2 & E3).
      cbv zeta. by rewrite E1, E2, E3.
    + destruct (Hserved now2 uid2 customer2 price2 Hp2 Hn2)
        as (checked & db1 & H1 & H2 & H3 & H4).
      destruct (run_one_after_the_other w0 Second _ _ _ _ _ _ _ _
                  H1 H2 (H4 _ _ _ _ Hp1) eq_refl) as (E1 & E2 & E3).
      cbv zeta. by rewrite E1, E2, E3.
  - intros schedule. destruct (Hany schedule) as (_ & _ & Hleft).
    cbv zeta. unfold stock_of. by rewrite Hleft.
Qed.

Lemma last_of_the_stock_witness :
  (session_of (run (two_customers 5 5) (one_after_the_other Second)) Second
     = Answered (Redirect (sales_seq (shop 5) + 1)) /\
   session_of (run (two_customers 5 5) (one_after_the_other Second)) (other Second)
     = Answered (Flash (NotEnoughStock (name (beef 5)))) /\
   stock_of (store (run (two_customers 5 5) (one_after_the_other Second))) 1
     = Some 0%float) /\
  stock_of (store (run (two_customers 5 5) (interleaved First))) 1
    = Some (deduct_all 5
              (repeat 5%float
                 (recorded (first (run (two_customers 5 5) (interleaved First)))
                  + recorded (second (run (two_customers 5 5) (interleaved First)))))).
Proof.
  assert (H := last_of_the_stock (shop 5) 1 (beef 5) 5 12.5 13 noon noon 7 8
                 "Asha" "Baraka").
  destruct H as [Hserial Hany]; try (vm_compute; reflexivity).
  split; [exact (Hserial Second) | exact (Hany (interleaved First))].
Defined.

(** * The catalog screens *)

Lemma max_key_ge (items : gmap Z meat_item) (item : Z) (row : meat_item) :
  items !! item = Some row -> item <= max_key items.
Proof.
  intros H. unfold max_key. apply elem_of_map_to_list in H.
  induction (map_to_list items) as [| [item' row'] l IH];
    [by apply elem_of_nil in H |].
  simpl. apply elem_of_cons in H as [H | H].
  - injection H as <- <-. lia.
  - specialize (IH H). lia.
Qed.

(** What the validation of the item form lets through. *)
Lemma item_of_form_valid (form : item_form) (row : meat_item) :
  item_of_form form = Some row ->
  item_error_of form = None /\
  name row = item_name form /\ item_name form <> ""%string /\
  unit_label row = or_kg (item_unit form) /\
  item_price form = Some (price_per_unit row) /\
  item_stock form = Some (stock_quantity row) /\
  (price_per_unit row <? 0)%float = false /\
  (stock_quantity row <? 0)%float = false.
Proof.
  unfold item_of_form, item_error_of.
  destruct (String.eqb_spec (item_name form) "") as [Hname | Hname]; [discriminate |].
  destruct (item_price form) as [price_val |]; [| discriminate].
  destruct (item_stock form) as [qty_val |]; [| discriminate].
  destruct ((price_val <? 0) || (qty_val <? 0))%float eqn:Hneg; [discriminate |].
  intros [= <-]. apply orb_false_iff in Hneg as [? ?]. by simpl.
Qed.

(** The same of the row as the table holds it. *)
Lemma stored_item_valid (form : item_form) (row : meat_item) :
  item_of_form form = Some row ->
  is_nan (price_per_unit row) = false -> is_nan (stock_quantity row) = false ->
  name (stored_item row) = item_name form /\ item_name form <> ""%string /\
  unit_label (stored_item row) = or_kg (item_unit form) /\
  sqlite_real <$> item_price form = Some (price_per_unit (stored_item row)) /\
  sqlite_real <$> item_stock form = Some (stock_quantity (stored_item row)) /\
  (0 <=? price_per_unit (stored_item row))%float = true /\
  (0 <=? stock_quantity (stored_item row))%float = true.
Proof.
  intros Hrow Hnp Hns.
  destruct (item_of_form_valid _ _ Hrow)
    as (_ & Hname & Hne & Hunit & Hprice & Hstock & Hp & Hs).
  simpl. rewrite Hprice, Hstock, !leb_sqlite_real_r. simpl.
  repeat split; try done; by apply number_not_below_zero.
Qed.

Lemma item_error_of_None (form : item_form) :
  item_error_of form = None -> exists row, item_of_form form = Some row.
Proof.
  unfold item_of_form. intros H. rewrite H. unfold item_error_of in H.
  destruct (String.eqb (item_name form) ""); [discriminate |].
  destruct (item_price form); [| discriminate].
  destruct (item_stock form); [| discriminate]. eauto.
Qed.

(** What [inventory_add] does when it saves. *)
Lemma inventory_add_saved (st st' : site) (method : http_method) (form : item_form) :
  inventory_add_body st method form = (InvSaved, st') ->
  exists row,
    method = POST /\
    item_of_form form = Some row /\
    is_nan (price_per_unit row) = false /\ is_nan (stock_quantity row) = false /\
    st' = {| site_db := site_db (with_meat_items st
               (<[Z.max (meat_items_seq st) (max_key (meat_items (site_db st))) + 1
                  := stored_item row]>
                  (meat_items (site_db st))));
             meat_items_seq :=
               Z.max (meat_items_seq st) (max_key (meat_items (site_db st))) + 1;
             users := users st; users_seq := users_seq st |}.
Proof.
  unfold inventory_add_body, insert_meat_item. intros H.
  destruct method; [discriminate |].
  destruct (item_error_of form); [discriminate |].
  destruct (item_of_form form) as [row |]; [| discriminate].
  destruct (is_nan (price_per_unit row) || is_nan (stock_quantity row)) eqn:Hnan;
    [discriminate |].
  apply orb_false_iff in Hnan as [? ?]. injection H as <-. by exists row.
Qed.

(** What [inventory_edit] does when it saves. *)
Lemma inventory_edit_saved (st st' : site) (method : http_method) (item : Z)
    (form : item_form) :
  inventory_edit_body st method item form = (InvSaved, st') ->
  exists old row,
    method = POST /\ sqlite_integer item = true /\
    meat_items (site_db st) !! item = Some old /\
    item_of_form form = Some row /\
    is_nan (price_per_unit row) = false /\ is_nan (stock_quantity row) = false /\
    st' = with_meat_items st (<[item := stored_item row]> (meat_items (site_db st))).
Proof.
  unfold inventory_edit_body, update_meat_item. intros H.
  destruct (sqlite_integer item); [| discriminate]. simpl in H.
  destruct (meat_items (site_db st) !! item) as [old |]; [| discriminate].
  destruct method; [discriminate |].
  destruct (item_error_of form); [discriminate |].
  destruct (item_of_form form) as [row |]; [| discriminate].
  destruct (is_nan (price_per_unit row) || is_nan (stock_quantity row)) eqn:Hnan;
    [discriminate |].
  apply orb_false_iff in Hnan as [? ?]. injection H as <-. by exists old, row.
Qed.

(** Whoever is not an administrator is turned away by the decorators. *)
Lemma not_admin_is_turned_away {R : Type} (st : site) (g_user : option user)
    (body : R * site) :
  (forall u, g_user = Some u -> user_role u = Cashier) ->
  settle st (login_required (admin_required (fun _ => Served body)) g_user) =
  (match g_user with None => ToLogin | Some _ => NoPermission end, st).
Proof.
  intros H. destruct g_user as [u |]; simpl; [| done].
  by rewrite (H u eq_refl).
Qed.

(** X7.  Only an administrator changes the catalog: for anyone else (no
    session, a session whose user is gone, or a cashier) the three catalog
    routes answer with the redirect to the login or with the
    no-permission flash, and leave the database as it was. *)
Theorem only_admin_changes_catalog (st : site) (c : cookie) (method : http_method)
    (item : Z) (form : item_form) :
  (forall u, load_logged_in_user st c = Some u -> user_role u = Cashier) ->
  let turned_away : guarded inventory_response :=
    match load_logged_in_user st c with
    | None => ToLogin
    | Some _ => NoPermission
    end in
  inventory_add st c method form = (turned_away, st) /\
  inventory_edit st c method item form = (turned_away, st) /\
  inventory_delete st c item = (turned_away, st).
Proof.
  intros H. unfold inventory_add, inventory_edit, inventory_delete.
  by rewrite !(not_admin_is_turned_away st _ _ H).
Qed.

Lemma only_admin_changes_catalog_witness :
  inventory_add (sample_site 50) (cookie_of cashier_user) POST pork_form
    = (NoPermission, sample_site 50) /\
  inventory_edit (sample_site 50) (cookie_of cashier_user) POST 1 pork_form
    = (NoPermission, sample_site 50) /\
  inventory_delete (sample_site 50) (cookie_of cashier_user) 1
    = (NoPermission, sample_site 50).
Proof.
  apply (only_admin_changes_catalog (sample_site 50) (cookie_of cashier_user) POST 1
           pork_form).
  intros u Hu. vm_compute in Hu. by injection Hu as <-.
Defined.

(** X8.  An item that [inventory_add] saves gets an id that no item has and
    that is above the counter, a name that is not empty, a unit that is not
    empty ("kg" when the field was), and for its price and its stock the
    numbers of the form as the [REAL] columns give them back (negative zero
    as 0.0), which are not below zero; every other item, the ledger and the
    users are left as they were. *)
Theorem inventory_add_saves_valid_item (st st' : site) (method : http_method)
    (form : item_form) :
  inventory_add_body st method form = (InvSaved, st') ->
  exists item row,
    meat_items (site_db st) !! item = None /\
    meat_items_seq st < item /\ meat_items_seq st' = item /\
    meat_items (site_db st') = <[item := row]> (meat_items (site_db st)) /\
    name row = item_name form /\ name row <> ""%string /\
    unit_label row = or_kg (item_unit form) /\ unit_label row <> ""%string /\
    sqlite_real <$> item_price form = Some (price_per_unit row) /\
    sqlite_real <$> item_stock form = Some (stock_quantity row) /\
    (0 <=? price_per_unit row)%float = true /\
    (0 <=? stock_quantity row)%float = true /\
    sales (site_db st') = sales (site_db st) /\
    sale_items (site_db st') = sale_items (site_db st) /\
    users st' = users st.
Proof.
  intros H.
  destruct (inventory_add_saved _ _ _ _ H) as (row & _ & Hrow & Hnp & Hns & ->).
  destruct (stored_item_valid _ _ Hrow Hnp Hns)
    as (Hname & Hne & Hunit & Hprice & Hstock & Hp & Hs).
  eexists _, (stored_item row). cbn [site_db with_meat_items meat_items sales sale_items
                                     meat_items_seq users].
  repeat split; try done.
  - destruct (meat_items (site_db st) !! _) as [row' |] eqn:Hin; [| done].
    apply max_key_ge in Hin. lia.
  - lia.
  - by rewrite Hname.
  - rewrite Hunit. unfold or_kg.
    destruct (String.eqb_spec (item_unit form) ""); done.
Qed.

Lemma inventory_add_saves_valid_item_witness :
  exists item row,
    meat_items (site_db (sample_site 50)) !! item = None /\
    meat_items_seq (sample_site 50) < item /\
    meat_items_seq (snd (inventory_add_body (sample_site 50) POST pork_form)) = item /\
    meat_items (site_db (snd (inventory_add_body (sample_site 50) POST pork_form)))
      = <[item := row]> (meat_items (site_db (sample_site 50))) /\
    name row = item_name pork_form /\ name row <> ""%string /\
    unit_label row = or_kg (item_unit pork_form) /\ unit_label row <> ""%string /\
    sqlite_real <$> item_price pork_form = Some (price_per_unit row) /\
    sqlite_real <$> item_stock pork_form = Some (stock_quantity row) /\
    (0 <=? price_per_unit row)%float = true /\
    (0 <=? stock_quantity row)%float = true /\
    sales (site_db (snd (inventory_add_body (sample_site 50) POST pork_form)))
      = sales (site_db (sample_site 50)) /\
    sale_items (site_db (snd (inventory_add_body (sample_site 50) POST pork_form)))
      = sale_items (site_db (sample_site 50)) /\
    users (snd (inventory_add_body (sample_site 50) POST pork_form))
      = users (sample_site 50).
Proof.
  apply (inventory_add_saves_valid_item (sample_site 50)
           (snd (inventory_add_body (sample_site 50) POST pork_form)) POST pork_form).
  vm_compute. reflexivity.
Defined.

(** X9.  When [inventory_edit] saves, the item existed, its row is
    replaced by the row of the form (name not empty; price and stock the
    numbers of the form as the [REAL] columns give them back, negative zero
    as 0.0, and not below zero), the price endpoint returns that row, and
    every other item, the counters, the ledger and the users are left as
    they were. *)
Theorem inventory_edit_replaces_one_item (st st' : site) (method : http_method)
    (item : Z) (form : item_form) :
  inventory_edit_body st method item form = (InvSaved, st') ->
  exists old row,
    meat_items (site_db st) !! item = Some old /\
    get_meat_price_body st' item = inr (Some (item, row)) /\
    (forall other, other <> item ->
       meat_items (site_db st') !! other = meat_items (site_db st) !! other) /\
    name row = item_name form /\ name row <> ""%string /\
    unit_label row = or_kg (item_unit form) /\
    sqlite_real <$> item_price form = Some (price_per_unit row) /\
    sqlite_real <$> item_stock form = Some (stock_quantity row) /\
    (0 <=? price_per_unit row)%float = true /\
    (0 <=? stock_quantity row)%float = true /\
    meat_items_seq st' = meat_items_seq st /\
    sales (site_db st') = sales (site_db st) /\
    sale_items (site_db st') = sale_items (site_db st) /\
    users st' = users st.
Proof.
  intros H.
  destruct (inventory_edit_saved _ _ _ _ _ H)
    as (old & row & _ & Hitem & Hold & Hrow & Hnp & Hns & ->).
  destruct (stored_item_valid _ _ Hrow Hnp Hns)
    as (Hname & Hne & Hunit & Hprice & Hstock & Hp & Hs).
  exists old, (stored_item row).
  cbn [site_db with_meat_items meat_items sales sale_items meat_items_seq users].
  repeat split; try done.
  - unfold get_meat_price_body. rewrite Hitem. simpl. by rewrite lookup_insert_eq.
  - intros other Hother. by rewrite lookup_insert_ne.
  - by rewrite Hname.
Qed.

Lemma inventory_edit_replaces_one_item_witness :
  exists old row,
    meat_items (site_db (sample_site 50)) !! 1 = Some old /\
    get_meat_price_body (snd (inventory_edit_body (sample_site 50) POST 1 pork_form)) 1
      = inr (Some (1, row)) /\
    (forall other, other <> 1 ->
       meat_items (site_db (snd (inventory_edit_body (sample_site 50) POST 1 pork_form)))
         !! other
       = meat_items (site_db (sample_site 50)) !! other) /\
    name row = item_name pork_form /\ name row <> ""%string /\
    unit_label row = or_kg (item_unit pork_form) /\
    sqlite_real <$> item_price pork_form = Some (price_per_unit row) /\
    sqlite_real <$> item_stock pork_form = Some (stock_quantity row) /\
    (0 <=? price_per_unit row)%float = true /\
    (0 <=? stock_quantity row)%float = true /\
    meat_items_seq (snd (inventory_edit_body (sample_site 50) POST 1 pork_form))
      = meat_items_seq (sample_site 50) /\
    sales (site_db (snd (inventory_edit_body (sample_site 50) POST 1 pork_form)))
      = sales (site_db (sample_site 50)) /\
    sale_items (site_db (snd (inventory_edit_body (sample_site 50) POST 1 pork_form)))
      = sale_items (site_db (sample_site 50)) /\
    users (snd (inventory_edit_body (sample_site 50) POST 1 pork_form))
      = users (sample_site 50).
Proof.
  apply (inventory_edit_replaces_one_item (sample_site 50)
           (snd (inventory_edit_body (sample_site 50) POST 1 pork_form)) POST 1 pork_form).
  vm_compute. reflexivity.
Defined.

(** A price and a stock of negative zero: the table holds 0.0 for both. *)
Example negative_zero_item_is_stored_as_zero :
  exists st' row,
    inventory_add_body (sample_site 50) POST
      {| item_name := "Veal"; item_unit := ""; item_price := Some (-0)%float;
         item_stock := Some (-0)%float |} = (InvSaved, st') /\
    meat_items (site_db st') !! 2 = Some row /\
    (1 / price_per_unit row =? infinity)%float = true /\
    (1 / stock_quantity row =? infinity)%float = true.
Proof.
  eexists _, _. repeat split; vm_compute; reflexivity.
Qed.

(** A catalog screen that does not save or delete leaves the database. *)
Lemma inventory_add_unsaved (st st' : site) method form r :
  inventory_add_body st method form = (r, st') -> r <> InvSaved -> st' = st.
Proof.
  unfold inventory_add_body. intros H Hr.
  repeat case_match; simplify_eq; done.
Qed.

Lemma inventory_edit_unsaved (st st' : site) method item form r :
  inventory_edit_body st method item form = (r, st') -> r <> InvSaved -> st' = st.
Proof.
  unfold inventory_edit_body. intros H Hr.
  repeat case_match; simplify_eq; done.
Qed.

Lemma inventory_delete_deleted (st st' : site) item r :
  inventory_delete_body st item = (r, st') ->
  (st' = st /\ forall meat_name, r <> InvDeleted meat_name) \/
  exists row, meat_items (site_db st) !! item = Some row /\ r = InvDeleted (name row) /\
              st' = with_meat_items st (delete item (meat_items (site_db st))).
Proof.
  unfold inventory_delete_body. intros H.
  repeat case_match; simplify_eq; eauto.
Qed.

(** A decorated view leaves what its body leaves, or the database as it
    was. *)
Lemma settle_cases {R : Type} (st : site) (g_user : option user) (body : R * site) :
  snd (settle st (login_required (admin_required (fun _ => Served body)) g_user)) = st \/
  snd (settle st (login_required (admin_required (fun _ => Served body)) g_user))
    = snd body.
Proof.
  destruct g_user as [u |]; simpl; [| by left].
  destruct (user_role u); simpl; [| by left]. right. by destruct body.
Qed.

Lemma inventory_add_saves_valid_item_aux (st st' : site) method form :
  inventory_add_body st method form = (InvSaved, st') ->
  exists item row,
    meat_items (site_db st') = <[item := row]> (meat_items (site_db st)) /\
    (0 <=? stock_quantity row)%float = true.
Proof.
  intros H.
  destruct (inventory_add_saved _ _ _ _ H) as (row & _ & Hrow & Hnp & Hns & ->).
  destruct (stored_item_valid _ _ Hrow Hnp Hns) as (_ & _ & _ & _ & _ & _ & Hs).
  by eexists _, (stored_item row).
Qed.

(** X10.  The three catalog routes keep every stock at or above zero,
    whoever calls them with whatever form: the invariant that the sale
    itself does not keep. *)
Theorem catalog_screens_keep_stock_nonnegative (st : site) (c : cookie)
    (method : http_method) (item : Z) (form : item_form) :
  stock_nonnegative (meat_items (site_db st)) ->
  stock_nonnegative (meat_items (site_db (snd (inventory_add st c method form)))) /\
  stock_nonnegative (meat_items (site_db (snd (inventory_edit st c method item form)))) /\
  stock_nonnegative (meat_items (site_db (snd (inventory_delete st c item)))).
Proof.
  intros Hst. unfold inventory_add, inventory_edit, inventory_delete.
  repeat split.
  - destruct (settle_cases st (load_logged_in_user st c)
                (inventory_add_body st method form)) as [-> | ->]; [done |].
    destruct (inventory_add_body st method form) as [r st'] eqn:H. simpl.
    destruct r;
      try (by rewrite (inventory_add_unsaved _ _ _ _ _ H ltac:(discriminate))).
    destruct (inventory_add_saves_valid_item_aux _ _ _ _ H)
      as (new & row & Hitems & Hstock).
    rewrite Hitems. intros k v Hk.
    destruct (decide (new = k)) as [-> | Hne].
    + rewrite lookup_insert_eq in Hk. by injection Hk as <-.
    + rewrite lookup_insert_ne in Hk by done. by apply (Hst k).
  - destruct (settle_cases st (load_logged_in_user st c)
                (inventory_edit_body st method item form)) as [-> | ->]; [done |].
    destruct (inventory_edit_body st method item form) as [r st'] eqn:H. simpl.
    destruct r;
      try (by rewrite (inventory_edit_unsaved _ _ _ _ _ _ H ltac:(discriminate))).
    destruct (inventory_edit_saved _ _ _ _ _ H)
      as (old & row & _ & _ & _ & Hrow & Hnp & Hns & ->).
    destruct (stored_item_valid _ _ Hrow Hnp Hns) as (_ & _ & _ & _ & _ & _ & Hs).
    cbn [site_db with_meat_items meat_items]. intros k v Hk.
    destruct (decide (item = k)) as [-> | Hne].
    + rewrite lookup_insert_eq in Hk. by injection Hk as <-.
    + rewrite lookup_insert_ne in Hk by done. by apply (Hst k).
  - destruct (settle_cases st (load_logged_in_user st c)
                (inventory_delete_body st item)) as [-> | ->]; [done |].
    destruct (inventory_delete_body st item) as [r st'] eqn:H. simpl.
    destruct (inventory_delete_deleted _ _ _ _ H) as [[-> _] | (row & _ & _ & ->)];
      [done |].
    simpl. intros k v Hk. apply lookup_delete_Some in Hk as [_ Hk]. by apply (Hst k).
Qed.

Lemma shop_stock_nonnegative (stock : float) :
  (0 <=? stock)%float = true -> stock_nonnegative (meat_items (shop stock)).
Proof.
  intros Hstock item row H. simpl in H.
  apply lookup_singleton_Some in H as [_ <-]. exact Hstock.
Qed.

Lemma catalog_screens_keep_stock_nonnegative_witness :
  stock_nonnegative
    (meat_items (site_db (snd (inventory_add (sample_site 50) (cookie_of admin_user)
                                 POST pork_form)))) /\
  stock_nonnegative
    (meat_items (site_db (snd (inventory_edit (sample_site 50) (cookie_of admin_user)
                                 POST 1 pork_form)))) /\
  stock_nonnegative
    (meat_items (site_db (snd (inventory_delete (sample_site 50) (cookie_of admin_user)
                                 1)))).
Proof.
  apply (catalog_screens_keep_stock_nonnegative (sample_site 50) (cookie_of admin_user)
           POST 1 pork_form).
  apply shop_stock_nonnegative. reflexivity.
Defined.

(** X11.  The id of a deleted item is not given out again: when no id of
    the catalog is above the counter and an item is deleted, the next item
    that [inventory_add] saves gets another id, so that the rows of
    [sale_items] that name the deleted item never come to name a
    different one. *)
Theorem deleted_id_is_not_reused (st st1 st2 : site) (item : Z) (meat_name : string)
    (method : http_method) (form : item_form) :
  catalog_sound st ->
  inventory_delete_body st item = (InvDeleted meat_name, st1) ->
  inventory_add_body st1 method form = (InvSaved, st2) ->
  meat_items (site_db st1) !! item = None /\
  meat_items (site_db st2) !! item = None /\
  item < meat_items_seq st2.
Proof.
  intros Hsound Hdel Hadd.
  destruct (inventory_delete_deleted _ _ _ _ Hdel) as [[_ Hno] | (row & Hrow & _ & ->)].
  - by destruct (Hno meat_name).
  - pose proof (Hsound item row Hrow) as Hle.
    destruct (inventory_add_saved _ _ _ _ Hadd) as (new & _ & _ & _ & _ & ->).
    simpl. split; [apply lookup_delete_eq |].
    split; [| lia].
    rewrite lookup_insert_ne by lia. apply lookup_delete_eq.
Qed.

Lemma sample_site_sound (stock : float) : catalog_sound (sample_site stock).
Proof.
  intros item row H. simpl in H.
  apply lookup_singleton_Some in H as [<- _]. simpl. lia.
Qed.

Lemma deleted_id_is_not_reused_witness :
  meat_items (site_db (snd (inventory_delete_body (sample_site 50) 1))) !! 1 = None /\
  meat_items
    (site_db (snd (inventory_add_body (snd (inventory_delete_body (sample_site 50) 1))
                     POST pork_form))) !! 1 = None /\
  1 < meat_items_seq
        (snd (inventory_add_body (snd (inventory_delete_body (sample_site 50) 1))
                POST pork_form)).
Proof.
  apply (deleted_id_is_not_reused (sample_site 50)
           (snd (inventory_delete_body (sample_site 50) 1))
           (snd (inventory_add_body (snd (inventory_delete_body (sample_site 50) 1))
                   POST pork_form))
           1 "Beef" POST pork_form).
  - apply sample_site_sound.
  - vm_compute. reflexivity.
  - vm_compute. reflexivity.
Defined.

(** A sale neither adds an item to the catalog nor removes one. *)
Lemma new_sale_keeps_items (db : database) now_iso uid form item :
  is_Some (meat_items (snd (new_sale db now_iso uid form)) !! item) <->
  is_Some (meat_items db !! item).
Proof.
  destruct (new_sale db now_iso uid form) as [r db'] eqn:H.
  destruct r as [sid | error | e]; simpl.
  2, 3: by rewrite (new_sale_unanswered _ _ _ _ _ _ H).
  rewrite (new_sale_stock _ _ _ _ _ _ H). by rewrite fmap_is_Some.
Qed.

(** X12.  No route puts an id of the catalog above the counter of
    [meat_items]: the three catalog routes and the sale keep this, whoever
    calls them with whatever form. *)
Theorem routes_keep_catalog_sound (st : site) (c : cookie) (method : http_method)
    (item : Z) (form : item_form) now_iso (order : post_form) :
  catalog_sound st ->
  catalog_sound (snd (inventory_add st c method form)) /\
  catalog_sound (snd (inventory_edit st c method item form)) /\
  catalog_sound (snd (inventory_delete st c item)) /\
  catalog_sound (snd (post_new_sale st c now_iso order)).
Proof.
  intros Hst. unfold inventory_add, inventory_edit, inventory_delete.
  repeat split.
  - destruct (settle_cases st (load_logged_in_user st c)
                (inventory_add_body st method form)) as [-> | ->]; [done |].
    destruct (inventory_add_body st method form) as [r st'] eqn:H. simpl.
    destruct r;
      try (by rewrite (inventory_add_unsaved _ _ _ _ _ H ltac:(discriminate))).
    destruct (inventory_add_saved _ _ _ _ H) as (row & _ & _ & _ & _ & ->).
    intros k v Hk. simpl in *.
    destruct (decide (Z.max (meat_items_seq st) (max_key (meat_items (site_db st))) + 1
                      = k)) as [<- | Hne]; [lia |].
    rewrite lookup_insert_ne in Hk by done. pose proof (Hst k v Hk). lia.
  - destruct (settle_cases st (load_logged_in_user st c)
                (inventory_edit_body st method item form)) as [-> | ->]; [done |].
    destruct (inventory_edit_body st method item form) as [r st'] eqn:H. simpl.
    destruct r;
      try (by rewrite (inventory_edit_unsaved _ _ _ _ _ _ H ltac:(discriminate))).
    destruct (inventory_edit_saved _ _ _ _ _ H)
      as (old & row & _ & _ & Hold & _ & _ & _ & ->).
    intros k v Hk. simpl in *.
    destruct (decide (item = k)) as [<- | Hne]; [by apply (Hst item old) |].
    rewrite lookup_insert_ne in Hk by done. by apply (Hst k v).
  - destruct (settle_cases st (load_logged_in_user st c)
                (inventory_delete_body st item)) as [-> | ->]; [done |].
    destruct (inventory_delete_body st item) as [r st'] eqn:H. simpl.
    destruct (inventory_delete_deleted _ _ _ _ H) as [[-> _] | (row & _ & _ & ->)];
      [done |].
    intros k v Hk. simpl in *. apply lookup_delete_Some in Hk as [_ Hk].
    by apply (Hst k v).
  - unfold post_new_sale.
    destruct (load_logged_in_user st c) as [u |]; simpl; [| done].
    pose proof (new_sale_keeps_items (site_db st) now_iso (users_id u) order) as Hkeys.
    destruct (new_sale (site_db st) now_iso (users_id u) order) as [r db'].
    simpl in *. intros k v Hk. simpl in *.
    destruct (proj1 (Hkeys k) (mk_is_Some _ _ Hk)) as [v' Hv'].
    by apply (Hst k v').
Qed.

Lemma routes_keep_catalog_sound_witness :
  catalog_sound (snd (inventory_add (sample_site 50) (cookie_of admin_user) POST
                        pork_form)) /\
  catalog_sound (snd (inventory_edit (sample_site 50) (cookie_of admin_user) POST 1
                        pork_form)) /\
  catalog_sound (snd (inventory_delete (sample_site 50) (cookie_of admin_user) 1)) /\
  catalog_sound (snd (post_new_sale (sample_site 50) (cookie_of admin_user) noon
                        (one_line 1 5 12.5))).
Proof.
  apply (routes_keep_catalog_sound (sample_site 50) (cookie_of admin_user) POST 1
           pork_form noon (one_line 1 5 12.5)).
  apply sample_site_sound.
Defined.

(** * The receipt *)

Lemma find_last {A : Type} (f : A -> bool) (l : list A) (x : A) :
  (forall y, y ∈ l -> f y = false) -> f x = true ->
  List.find f (l ++ [x]) = Some x.
Proof.
  intros Hl Hx. induction l as [| y l IH]; simpl; [by rewrite Hx |].
  rewrite (Hl y) by by left. apply IH. intros z Hz. apply Hl. by right.
Qed.

Lemma filter_none {A : Type} (f : A -> bool) (l : list A) :
  (forall y, y ∈ l -> f y = false) -> List.filter f l = [].
Proof.
  intros Hl. induction l as [| y l IH]; simpl; [done |].
  rewrite (Hl y) by by left. apply IH. intros z Hz. apply Hl. by right.
Qed.

Lemma filter_all {A : Type} (f : A -> bool) (l : list A) :
  (forall y, y ∈ l -> f y = true) -> List.filter f l = l.
Proof.
  intros Hl. induction l as [| y l IH]; simpl; [done |].
  rewrite (Hl y) by by left. f_equal. apply IH. intros z Hz. apply Hl. by right.
Qed.

(** The join with [meat_items] keeps every row whose item exists. *)
Lemma join_items_all (items : gmap Z meat_item) (rows : list sale_item) :
  (forall r, r ∈ rows -> is_Some (items !! meat_item_id r)) ->
  map rl_row (join_items items rows) = rows /\
  Forall (fun l => exists m, items !! meat_item_id (rl_row l) = Some m /\
                             rl_name l = name m /\ rl_unit l = unit_label m)
    (join_items items rows).
Proof.
  induction rows as [| r rows IH]; intros Hrows; simpl.
  - split; constructor.
  - destruct IH as (Hmap & Hall); [intros z Hz; apply Hrows; by right |].
    destruct (Hrows r) as [m Hm]; [by left |].
    rewrite Hm. simpl. split; [by f_equal |].
    constructor; [| done]. simpl. eauto.
Qed.

(** The rows of a recorded sale, with the items they name. *)
Lemma new_sale_rows (db db' : database) now_iso uid form sid :
  new_sale db now_iso uid form = (Redirect sid, db') ->
  exists rows,
    sid = sales_seq db + 1 /\
    sales db' = sales db ++ [ {| sales_id := sid; sale_datetime := now_iso;
                                 user_id := uid;
                                 customer_name := or_None (form_customer_name form);
                                 total_amount := fsum (map row_product rows) |} ] /\
    sale_items db' = sale_items db ++ rows /\
    map row_line rows = map stored_line (entered_lines form) /\
    Forall (fun r => sale_id r = sid) rows /\
    Forall (fun r => is_Some (meat_items db !! meat_item_id r)) rows.
Proof.
  intros H.
  destruct (new_sale_recorded _ _ _ _ _ _ H)
    as (rows & Hsales & Hrows & Hlines & Hsid & _).
  destruct (new_sale_redirect _ _ _ _ _ _ H) as (line_items & total & Hloop & Hpersist).
  destruct (recorded_line_items _ _ _ _ _ _ _ _ Hloop Hpersist)
    as (_ & _ & _ & Hchecked).
  apply persist_spec in Hpersist as (_ & Hseq & _ & Hrows' & _ & _).
  rewrite Hrows in Hrows'. apply app_inv_head in Hrows'. subst rows.
  eexists. repeat split; try eassumption.
  rewrite Forall_forall in Hchecked. apply Forall_forall. intros r Hr.
  apply rows_of_elem in Hr as (_ & _ & li & Hli & -> & _).
  destruct (Hchecked li Hli) as (row & -> & _). eauto.
Qed.

(** X13.  The receipt of a sale that was just recorded shows that sale:
    its header with the cashier's user name, the time and the total, and
    one line for each line the form asked for, in order (the price as the
    [REAL] column gives it back: negative zero as 0.0), with the name and
    the unit of its item; the total is the sum of the products of the
    lines shown. *)
Theorem receipt_shows_recorded_sale (st st' : site) (c : cookie) now_iso form sid
    (u : user) :
  ledger_sound (site_db st) ->
  load_logged_in_user st c = Some u ->
  post_new_sale st c now_iso form = (Served (Redirect sid), st') ->
  sqlite_integer sid = true ->
  exists header lines,
    sale_receipt st' c sid = Served (Receipt header (username u) lines) /\
    sales_id header = sid /\
    user_id header = users_id u /\
    sale_datetime header = now_iso /\
    total_amount header = fsum (map (fun l => row_product (rl_row l)) lines) /\
    map (fun l => row_line (rl_row l)) lines = map stored_line (entered_lines form) /\
    Forall (fun l => exists m,
              meat_items (site_db st) !! meat_item_id (rl_row l) = Some m /\
              rl_name l = name m /\ rl_unit l = unit_label m) lines.
Proof.
  intros (Hs & _ & _ & _ & Href) Hu Hpost Hsid.
  unfold post_new_sale in Hpost. rewrite Hu in Hpost. simpl in Hpost.
  destruct (new_sale (site_db st) now_iso (users_id u) form) as [r db'] eqn:Hsale.
  simpl in Hpost. injection Hpost as -> <-.
  destruct (new_sale_rows _ _ _ _ _ _ Hsale)
    as (rows & -> & Hsales & Hrows & Hlines & Hsids & Hitems).
  pose proof (new_sale_stock _ _ _ _ _ _ Hsale) as Hstock.
  rewrite Forall_forall in Hs. rewrite Forall_forall in Href.
  rewrite Forall_forall in Hsids. rewrite Forall_forall in Hitems.
  (* the user of the cookie is found again under the id of the sale *)
  assert (Huser : get_user_by_id (users st) (users_id u) = Some u).
  { unfold load_logged_in_user in Hu.
    destruct (cookie_user_id c) as [uid |]; [| discriminate].
    unfold get_user_by_id in *.
    destruct (find_some _ _ Hu) as [_ Heq]. apply Z.eqb_eq in Heq. by rewrite Heq. }
  (* the lines are the rows of this sale, joined with their items *)
  destruct (join_items_all (meat_items db') rows) as (Hmap & Hall).
  { intros r Hr. rewrite Hstock. apply fmap_is_Some. by apply Hitems. }
  match type of Hmap with map rl_row ?lines = _ => eexists _, lines end.
  repeat split.
  - unfold sale_receipt, load_logged_in_user. simpl.
    fold (load_logged_in_user st c). rewrite Hu. simpl.
    unfold sale_receipt_body. rewrite Hsid. simpl.
    unfold sale_with_user, receipt_lines. simpl. rewrite Hsales, Hrows.
    assert (Hold : List.filter (fun r => sale_id r =? sales_seq (site_db st) + 1)
                     (sale_items (site_db st)) = []).
    { apply filter_none. intros r Hr. apply Z.eqb_neq. intros Heq.
      pose proof (Href r Hr) as Hin.
      apply list_elem_of_fmap in Hin as (s & Hs' & Hin).
      pose proof (Hs s Hin). lia. }
    assert (Hthis : List.filter (fun r => sale_id r =? sales_seq (site_db st) + 1) rows
                    = rows).
    { apply filter_all. intros r Hr. apply Z.eqb_eq. by apply Hsids. }
    rewrite find_last.
    + simpl. rewrite Huser. by rewrite List.filter_app, Hold, Hthis.
    + intros s Hin. apply Z.eqb_neq. pose proof (Hs s Hin). lia.
    + apply Z.eqb_refl.
  - done.
  - done.
  - done.
  - by rewrite <- (map_map rl_row row_product), Hmap.
  - by rewrite <- (map_map rl_row row_line), Hmap.
  - apply Forall_forall. intros l Hl. rewrite Forall_forall in Hall.
    destruct (Hall l Hl) as (m & Hm & Hname & Hunit).
    rewrite Hstock in Hm.
    destruct (meat_items (site_db st) !! meat_item_id (rl_row l)) as [m0 |];
      [| discriminate].
    simpl in Hm. injection Hm as <-. eauto.
Qed.

Lemma receipt_shows_recorded_sale_witness :
  exists header lines,
    sale_receipt site_after_sale (cookie_of cashier_user) 1
      = Served (Receipt header (username cashier_user) lines) /\
    sales_id header = 1 /\
    user_id header = users_id cashier_user /\
    sale_datetime header = noon /\
    total_amount header = fsum (map (fun l => row_product (rl_row l)) lines) /\
    map (fun l => row_line (rl_row l)) lines
      = map stored_line (entered_lines (one_line 1 5 12.5)) /\
    Forall (fun l => exists m,
              meat_items (site_db (sample_site 50)) !! meat_item_id (rl_row l) = Some m /\
              rl_name l = name m /\ rl_unit l = unit_label m) lines.
Proof.
  apply (receipt_shows_recorded_sale (sample_site 50) site_after_sale
           (cookie_of cashier_user) noon (one_line 1 5 12.5) 1 cashier_user).
  - repeat split; constructor.
  - vm_compute. reflexivity.
  - vm_compute. reflexivity.
  - reflexivity.
Defined.

(** The join with a catalog from which an item was deleted. *)
Lemma join_items_delete (items : gmap Z meat_item) (item : Z) (rows : list sale_item) :
  join_items (delete item items) rows
  = List.filter (fun l => negb (meat_item_id (rl_row l) =? item)) (join_items items rows).
Proof.
  induction rows as [| r rows IH]; simpl; [done |].
  destruct (Z.eqb_spec (meat_item_id r) item) as [Heq | Hne].
  - rewrite Heq, lookup_delete_eq, IH.
    destruct (items !! item); simpl; [| done].
    by rewrite Heq, Z.eqb_refl.
  - rewrite lookup_delete_ne by done.
    destruct (items !! meat_item_id r); simpl; [| done].
    rewrite IH. by destruct (Z.eqb_spec (meat_item_id r) item).
Qed.

(** X14.  Deleting an item keeps the whole ledger, rows of the item
    included, and every sale is still found; but every receipt loses
    exactly the lines of the deleted item, because the receipt joins the
    rows with the catalog: a receipt may then show fewer lines than its
    total counts. *)
Theorem deleted_item_leaves_receipts (st st' : site) (item : Z) (meat_name : string) :
  inventory_delete_body st item = (InvDeleted meat_name, st') ->
  sales (site_db st') = sales (site_db st) /\
  sale_items (site_db st') = sale_items (site_db st) /\
  forall sid,
    sale_with_user st' sid = sale_with_user st sid /\
    receipt_lines st' sid =
    List.filter (fun l => negb (meat_item_id (rl_row l) =? item)) (receipt_lines st sid).
Proof.
  intros H.
  destruct (inventory_delete_deleted _ _ _ _ H) as [[_ Hno] | (row & _ & _ & ->)];
    [by destruct (Hno meat_name) |].
  repeat split. unfold receipt_lines. simpl. apply join_items_delete.
Qed.

Lemma deleted_item_leaves_receipts_witness :
  sales (site_db (snd (inventory_delete_body site_after_sale 1)))
    = sales (site_db site_after_sale) /\
  sale_items (site_db (snd (inventory_delete_body site_after_sale 1)))
    = sale_items (site_db site_after_sale) /\
  forall sid,
    sale_with_user (snd (inventory_delete_body site_after_sale 1)) sid
      = sale_with_user site_after_sale sid /\
    receipt_lines (snd (inventory_delete_body site_after_sale 1)) sid =
    List.filter (fun l => negb (meat_item_id (rl_row l) =? 1))
      (receipt_lines site_after_sale sid).
Proof.
  apply (deleted_item_leaves_receipts site_after_sale
           (snd (inventory_delete_body site_after_sale 1)) 1 "Beef").
  vm_compute. reflexivity.
Defined.

(** After the sale of beef and the deletion of beef: the sale is there
    with its total of 62.5, and its receipt has no line. *)
Example receipt_without_its_line :
  sale_receipt_body (snd (inventory_delete_body site_after_sale 1)) 1
  = Receipt {| sales_id := 1; sale_datetime := noon; user_id := 2;
               customer_name := None; total_amount := 62.5 |} "amina" [].
Proof. vm_compute. reflexivity. Qed.

(** * Login and start-up *)

(** X15.  [login] welcomes only a request that was POSTed with a user name
    and a password that are both not empty, for a row of [users] with that
    user name whose hash [check_password_hash] accepts for the password;
    the session then holds that user's id and role.  Every other request
    leaves the session as it was (a failed login does not log out). *)
Theorem login_is_sound (check : string -> string -> bool) (st : site) (c c' : cookie)
    (method : http_method) (uname password : string) (r : login_response) :
  login check st c method uname password = (r, c') ->
  match r with
  | Welcome n =>
      method = POST /\ uname <> ""%string /\ password <> ""%string /\
      exists u,
        u ∈ users st /\ username u = uname /\ n = uname /\
        check (password_hash u) password = true /\
        c' = cookie_of u
  | _ => c' = c
  end.
Proof.
  unfold login. intros H.
  destruct method; [by injection H as <- <- |].
  destruct (String.eqb_spec uname "") as [Hu | Hu]; simpl in H;
    [by injection H as <- <- |].
  destruct (String.eqb_spec password "") as [Hp | Hp]; simpl in H;
    [by injection H as <- <- |].
  destruct (get_user_by_username (users st) uname) as [u |] eqn:Hfind;
    [| by injection H as <- <-].
  destruct (check (password_hash u) password) eqn:Hcheck;
    [| by injection H as <- <-].
  injection H as <- <-.
  unfold get_user_by_username in Hfind.
  destruct (find_some _ _ Hfind) as [Hin Hname].
  apply String.eqb_eq in Hname.
  repeat split; try done.
  exists u. repeat split; try done. by apply list_elem_of_In.
Qed.

Lemma login_is_sound_witness :
  POST = POST /\ "amina"%string <> ""%string /\ "till"%string <> ""%string /\
  exists u,
    u ∈ users (sample_site 50) /\ username u = "amina"%string /\
    "amina"%string = "amina"%string /\
    toy_check (password_hash u) "till" = true /\
    cookie_of cashier_user = cookie_of u.
Proof.
  apply (login_is_sound toy_check (sample_site 50) cleared (cookie_of cashier_user)
           POST "amina" "till" (Welcome "amina")).
  vm_compute. reflexivity.
Defined.

(** X16.  On a database without users, [ensure_default_admin] creates the
    user [admin]; provided the hash that [generate_password_hash] makes
    of "admin123" is accepted by [check_password_hash] for "admin123",
    that user can log in with it and is loaded as an administrator on the
    requests that follow.  The other tables are not touched. *)
Theorem default_admin_can_log_in (check : string -> string -> bool)
    (generate : string -> string) (st : site) (c : cookie) :
  users st = [] ->
  check (generate "admin123"%string) "admin123"%string = true ->
  exists u,
    login check (ensure_default_admin generate st) c POST "admin" "admin123"
      = (Welcome "admin", cookie_of u) /\
    load_logged_in_user (ensure_default_admin generate st) (cookie_of u) = Some u /\
    user_role u = Admin /\
    users (ensure_default_admin generate st) = [u] /\
    site_db (ensure_default_admin generate st) = site_db st.
Proof.
  intros Hnone Hcheck. unfold ensure_default_admin. rewrite Hnone.
  eexists. repeat split.
  - unfold login. simpl. by rewrite Hcheck.
  - unfold load_logged_in_user, get_user_by_id. simpl. by rewrite Z.eqb_refl.
  - done.
Qed.

Lemma default_admin_can_log_in_witness :
  exists u,
    login toy_check
      (ensure_default_admin toy_generate
         {| site_db := shop 50; meat_items_seq := 1; users := []; users_seq := 0 |})
      cleared POST "admin" "admin123"
      = (Welcome "admin", cookie_of u) /\
    load_logged_in_user
      (ensure_default_admin toy_generate
         {| site_db := shop 50; meat_items_seq := 1; users := []; users_seq := 0 |})
      (cookie_of u) = Some u /\
    user_role u = Admin /\
    users (ensure_default_admin toy_generate
             {| site_db := shop 50; meat_items_seq := 1; users := []; users_seq := 0 |})
      = [u] /\
    site_db (ensure_default_admin toy_generate
               {| site_db := shop 50; meat_items_seq := 1; users := []; users_seq := 0 |})
      = site_db {| site_db := shop 50; meat_items_seq := 1; users := []; users_seq := 0 |}.
Proof.
  apply (default_admin_can_log_in toy_check toy_generate
           {| site_db := shop 50; meat_items_seq := 1; users := []; users_seq := 0 |}
           cleared); reflexivity.
Defined.

(** One [INSERT] into [meat_items] of a row that holds numbers. *)
Lemma insert_meat_item_ok (st : site) (row : meat_item) :
  is_nan (price_per_unit row) = false -> is_nan (stock_quantity row) = false ->
  exists st' item,
    insert_meat_item st row = inr st' /\
    meat_items (site_db st) !! item = None /\
    meat_items (site_db st') = <[item := stored_item row]> (meat_items (site_db st)) /\
    sales (site_db st') = sales (site_db st) /\
    sale_items (site_db st') = sale_items (site_db st) /\
    users st' = users st.
Proof.
  intros Hp Hs. unfold insert_meat_item. rewrite Hp, Hs. simpl.
  eexists _, _. repeat split.
  destruct (meat_items (site_db st) !! _) as [row' |] eqn:Hin; [| done].
  apply max_key_ge in Hin. lia.
Qed.

(** The four sample rows go in, whatever the database. *)
Lemma insert_sample_items (st : site) :
  stock_nonnegative (meat_items (site_db st)) ->
  exists st',
    insert_meat_items st sample_items = inr st' /\
    size (meat_items (site_db st')) = (4 + size (meat_items (site_db st)))%nat /\
    stock_nonnegative (meat_items (site_db st')) /\
    sales (site_db st') = sales (site_db st) /\
    sale_items (site_db st') = sale_items (site_db st) /\
    users st' = users st.
Proof.
  intros Hst. unfold sample_items. cbn [insert_meat_items].
  edestruct (insert_meat_item_ok st) as (st1 & k1 & -> & Hk1 & Hm1 & Hs1 & Hi1 & Hu1);
    [reflexivity | reflexivity |]. cbn [bind].
  edestruct (insert_meat_item_ok st1) as (st2 & k2 & -> & Hk2 & Hm2 & Hs2 & Hi2 & Hu2);
    [reflexivity | reflexivity |]. cbn [bind].
  edestruct (insert_meat_item_ok st2) as (st3 & k3 & -> & Hk3 & Hm3 & Hs3 & Hi3 & Hu3);
    [reflexivity | reflexivity |]. cbn [bind].
  edestruct (insert_meat_item_ok st3) as (st4 & k4 & -> & Hk4 & Hm4 & Hs4 & Hi4 & Hu4);
    [reflexivity | reflexivity |]. cbn [bind].
  exists st4. repeat split.
  - rewrite Hm4, map_size_insert_None by done.
    rewrite Hm3, map_size_insert_None by done.
    rewrite Hm2, map_size_insert_None by done.
    by rewrite Hm1, map_size_insert_None by done.
  - rewrite Hm4, Hm3, Hm2, Hm1. intros k v Hk.
    repeat (apply lookup_insert_Some in Hk as [[_ <-] | [_ Hk]]; [reflexivity |]).
    by apply (Hst k).
  - congruence.
  - congruence.
  - congruence.
Qed.

(** X17.  The seeding at start-up happens once and overwrites nothing: on
    an empty catalog [ensure_sample_data] creates four items, each with a
    stock not below zero, and touches no other table; on a catalog that
    has an item, and when run again, it changes nothing; and
    [ensure_default_admin] changes nothing when there is a user, and so
    nothing when run again. *)
Theorem seeding_happens_once (generate : string -> string) (st : site) :
  (meat_items (site_db st) = ∅ ->
     size (meat_items (site_db (ensure_sample_data st))) = 4%nat /\
     stock_nonnegative (meat_items (site_db (ensure_sample_data st))) /\
     sales (site_db (ensure_sample_data st)) = sales (site_db st) /\
     sale_items (site_db (ensure_sample_data st)) = sale_items (site_db st) /\
     users (ensure_sample_data st) = users st) /\
  (meat_items (site_db st) <> ∅ -> ensure_sample_data st = st) /\
  ensure_sample_data (ensure_sample_data st) = ensure_sample_data st /\
  (users st <> [] -> ensure_default_admin generate st = st) /\
  ensure_default_admin generate (ensure_default_admin generate st)
    = ensure_default_admin generate st.
Proof.
  assert (Hempty : meat_items (site_db st) = ∅ ->
    exists st', ensure_sample_data st = st' /\
      size (meat_items (site_db st')) = 4%nat /\
      stock_nonnegative (meat_items (site_db st')) /\
      sales (site_db st') = sales (site_db st) /\
      sale_items (site_db st') = sale_items (site_db st) /\
      users st' = users st).
  { intros Hnone. unfold ensure_sample_data. rewrite decide_True by done.
    destruct (insert_sample_items st) as (st' & -> & Hsize & Hrest).
    - rewrite Hnone. intros k v Hk. by rewrite lookup_empty in Hk.
    - exists st'. split; [done |]. rewrite Hsize, Hnone, map_size_empty.
      split; [done | exact Hrest]. }
  assert (Hfull : forall st0, meat_items (site_db st0) <> ∅ -> ensure_sample_data st0 = st0).
  { intros st0 Hsome. unfold ensure_sample_data. by rewrite decide_False. }
  split; [| split; [| split; [| split]]].
  - intros Hnone. destruct (Hempty Hnone) as (st' & -> & Hrest). exact Hrest.
  - apply Hfull.
  - destruct (decide (meat_items (site_db st) = ∅)) as [Hnone | Hsome].
    + destruct (Hempty Hnone) as (st' & -> & Hsize & _).
      apply Hfull. intros Hnone'. by rewrite Hnone', map_size_empty in Hsize.
    + by rewrite !(Hfull st Hsome).
  - intros Hsome. unfold ensure_default_admin. by destruct (users st).
  - unfold ensure_default_admin. destruct (users st) eqn:Hu; simpl; [done |].
    by rewrite Hu.
Qed.

(** * Stocks and amounts of recorded sales *)

Lemma ordered_asked (item : Z) (line_items : list line_item) :
  ordered item line_items = asked_in item (map line_of line_items).
Proof.
  unfold ordered, asked_in.
  induction line_items as [| li rest IH]; simpl; [done |].
  destruct (li_meat_item_id li =? item); simpl; by rewrite IH.
Qed.

Lemma ordered_elem (item : Z) (line_items : list line_item) (q : float) :
  q ∈ ordered item line_items ->
  exists li, li ∈ line_items /\ li_meat_item_id li = item /\ li_quantity li = q.
Proof.
  unfold ordered. induction line_items as [| li rest IH]; simpl; intros Hq.
  - by apply elem_of_nil in Hq.
  - destruct (Z.eqb_spec (li_meat_item_id li) item) as [Hitem | Hitem]; simpl in Hq.
    + apply elem_of_cons in Hq as [-> | Hq].
      * exists li. repeat split; [by left | done].
      * destruct (IH Hq) as (li' & Hli' & Hrest). exists li'. split; [by right | done].
    + destruct (IH Hq) as (li' & Hli' & Hrest). exists li'. split; [by right | done].
Qed.

(** The stock of an item that a line names is a number when the loop of
    the transaction is through: the last [UPDATE] of that row would have
    failed on a NaN. *)
Lemma persist_lines_stock_numbers (line_items : list line_item) : forall db sid db',
  persist_lines db sid line_items = inr db' ->
  forall li row', li ∈ line_items ->
    meat_items db' !! li_meat_item_id li = Some row' ->
    is_nan (stock_quantity row') = false.
Proof.
  induction line_items as [| li0 rest IH]; intros db sid db' H li row' Hli Hrow'.
  - by apply elem_of_nil in Hli.
  - simpl in H. unfold insert_sale_item in H. case_match; [discriminate |].
    simpl in H.
    destruct (deduct_stock _ _ _) as [e | db2] eqn:Hdeduct; [discriminate |].
    simpl in H.
    apply elem_of_cons in Hli as [-> | Hli]; [| by eapply IH].
    destruct (ordered (li_meat_item_id li0) rest) as [| q qs] eqn:Hord.
    + pose proof (persist_lines_spec _ _ _ _ H) as (_ & _ & _ & Hstock).
      rewrite Hstock, Hord in Hrow'.
      unfold deduct_stock in Hdeduct. simpl in Hdeduct.
      destruct (meat_items db !! li_meat_item_id li0) as [row |] eqn:Hrow.
      * destruct (is_nan (stock_quantity row - li_quantity li0)) eqn:Hnan;
          [discriminate |].
        injection Hdeduct as <-. simpl in Hrow'.
        rewrite lookup_insert_eq in Hrow'. simpl in Hrow'. injection Hrow' as <-.
        simpl. by rewrite is_nan_sqlite_real.
      * injection Hdeduct as <-. simpl in Hrow'. by rewrite Hrow in Hrow'.
    + assert (q ∈ ordered (li_meat_item_id li0) rest) as Hq by (rewrite Hord; left).
      apply ordered_elem in Hq as (li' & Hli' & Hitem & _).
      rewrite <- Hitem in Hrow'. by eapply IH.
Qed.

(** The line items of a recorded sale: what the loop of the view checked of
    them, and the loop of the transaction that wrote them. *)
Lemma new_sale_line_items (db db' : database) now_iso uid form sid :
  new_sale db now_iso uid form = (Redirect sid, db') ->
  exists line_items db1,
    persist_lines db1 sid line_items = inr db' /\
    sale_items db' = sale_items db ++ rows_of (sale_items_seq db) sid line_items /\
    (forall item, ordered item line_items = asked item form) /\
    Forall (fun li =>
              (0 <? li_quantity li)%float = true /\
              (0 <=? li_unit_price li)%float = true /\
              li_line_total li = (li_quantity li * li_unit_price li)%float /\
              is_nan (li_line_total li) = false /\
              exists row,
                meat_items db !! li_meat_item_id li = Some row /\
                (stock_quantity row <? li_quantity li)%float = false) line_items.
Proof.
  intros H.
  destruct (new_sale_redirect _ _ _ _ _ _ H) as (line_items & total & Hloop & Hpersist).
  destruct (recorded_line_items _ _ _ _ _ _ _ _ Hloop Hpersist)
    as (Hsound & _ & Hlines & Hchecked).
  pose proof (persist_seqs _ _ _ _ _ _ _ _ Hpersist) as (_ & _ & Hnum).
  pose proof (persist_spec _ _ _ _ _ _ _ _ Hpersist) as (_ & _ & _ & Hrows & _ & _).
  unfold persist, insert_sale in Hpersist.
  destruct (is_nan total); [discriminate |]. simpl in Hpersist.
  destruct (persist_lines _ _ _) as [e | db2] eqn:Hwritten; [discriminate |].
  injection Hpersist as <- <-.
  eexists line_items, _. split; [exact Hwritten |]. split; [exact Hrows |]. split.
  - intros item. unfold asked, entered_lines. by rewrite ordered_asked, Hlines.
  - rewrite Forall_forall in Hchecked. rewrite Forall_forall in Hnum.
    rewrite Forall_forall in Hsound.
    apply Forall_forall. intros li Hli.
    destruct (Hchecked li Hli) as (row & Hrow & _ & Hstock).
    destruct (Hsound li Hli) as (Hq & Hp & Hprod).
    destruct (Hnum li Hli) as (_ & _ & Hnt).
    repeat split; [done | done | done | done | eauto].
Qed.

(** A recorded sale and an item that at most one of its lines names. *)
Lemma new_sale_item_stock (db db' : database) now_iso uid form sid
    (item : Z) (row' : meat_item) :
  (forall row, meat_items db !! item = Some row ->
               (0 <=? stock_quantity row)%float = true) ->
  new_sale db now_iso uid form = (Redirect sid, db') ->
  (length (asked item form) <= 1)%nat ->
  meat_items db' !! item = Some row' ->
  (0 <=? stock_quantity row')%float = true.
Proof.
  intros Hdb H Hlen Hrow'.
  destruct (new_sale_line_items _ _ _ _ _ _ H)
    as (line_items & db1 & Hwritten & _ & Hordered & Hchecked).
  pose proof (new_sale_stock _ _ _ _ _ _ H item) as Hstock.
  rewrite Hrow' in Hstock.
  destruct (meat_items db !! item) as [row |] eqn:Hrow; [| discriminate].
  simpl in Hstock. injection Hstock as Hstock.
  destruct (asked item form) as [| q [| q' qs]] eqn:Hasked; simpl in Hlen; [| | lia].
  - subst row'. simpl. by apply Hdb.
  - assert (q ∈ ordered item line_items) as Hq by (rewrite Hordered, Hasked; left).
    apply ordered_elem in Hq as (li & Hli & Hitem & Hqty).
    rewrite Forall_forall in Hchecked.
    destruct (Hchecked li Hli) as (Hpos & _ & _ & _ & row0 & Hrow0 & Henough).
    rewrite Hitem, Hrow in Hrow0. injection Hrow0 as <-. rewrite Hqty in *.
    pose proof (persist_lines_stock_numbers _ _ _ _ Hwritten li row' Hli) as Hnum.
    rewrite Hitem in Hnum. specialize (Hnum Hrow').
    subst row'. simpl in *. by apply sub_nonneg.
Qed.

(** X18.  Requests served one at a time never take the stock of an item
    below zero as long as none of their forms names the item on two lines:
    when the stock of the item is not below zero before the first request,
    it is not below zero after the last, whatever the requests ask and
    whether they are recorded, turned down or fail. *)
Theorem sales_in_turn_keep_stock_nonnegative (requests : list sale_request)
    (db : database) (item : Z) (row' : meat_item) :
  (forall row, meat_items db !! item = Some row ->
               (0 <=? stock_quantity row)%float = true) ->
  Forall (fun r => (length (asked item (req_form r)) <= 1)%nat) requests ->
  meat_items (serve_in_turn db requests) !! item = Some row' ->
  (0 <=? stock_quantity row')%float = true.
Proof.
  revert db. induction requests as [| r rest IH]; intros db Hdb Hone Hrow'.
  - by apply Hdb.
  - inversion Hone as [| ? ? Hr Hrest]; subst.
    unfold serve_in_turn in Hrow'. cbn [fold_left] in Hrow'.
    apply (IH (snd (new_sale db (req_now r) (req_uid r) (req_form r))));
      [| done | done].
    destruct (new_sale db (req_now r) (req_uid r) (req_form r)) as [answer db1] eqn:H.
    simpl. intros row Hrow.
    destruct answer as [sid | error | e].
    + by apply (new_sale_item_stock _ _ _ _ _ _ _ _ Hdb H Hr).
    + apply new_sale_unanswered in H; [| discriminate]. subst db1. by apply Hdb.
    + apply new_sale_unanswered in H; [| discriminate]. subst db1. by apply Hdb.
Qed.

Lemma sales_in_turn_keep_stock_nonnegative_witness :
  (0 <=? stock_quantity (beef 0))%float = true.
Proof.
  apply (sales_in_turn_keep_stock_nonnegative
           [ {| req_now := noon; req_uid := 7; req_form := one_line 1 5 12.5 |};
             {| req_now := noon; req_uid := 8; req_form := one_line 1 50 12.5 |};
             {| req_now := noon; req_uid := 8; req_form := one_line 1 45 12.5 |} ]
           (shop 50) 1 (beef 0)).
  - intros row Hrow. simpl in Hrow.
    apply lookup_singleton_Some in Hrow as [_ <-]. reflexivity.
  - repeat constructor.
  - vm_compute. reflexivity.
Defined.

(** X19.  No amount of a recorded sale is below zero: neither the
    [line_total] of any of its rows of [sale_items] nor the [total_amount]
    of its row of [sales]. *)
Theorem recorded_amounts_are_nonnegative (db db' : database) now_iso uid form sid :
  new_sale db now_iso uid form = (Redirect sid, db') ->
  exists s rows,
    sales db' = sales db ++ [s] /\ sales_id s = sid /\
    sale_items db' = sale_items db ++ rows /\
    (0 <=? total_amount s)%float = true /\
    Forall (fun r => (0 <=? line_total r)%float = true) rows.
Proof.
  intros H.
  destruct (new_sale_recorded _ _ _ _ _ _ H)
    as (rows & Hsales & Hrows & _ & _ & Hprod & Htotal & _ & _).
  destruct (new_sale_line_items _ _ _ _ _ _ H)
    as (line_items & db1 & _ & Hrows' & _ & Hchecked).
  rewrite Hrows in Hrows'. apply app_inv_head in Hrows'. subst rows.
  rewrite Forall_forall in Hchecked.
  assert (Forall (fun r => (0 <=? line_total r)%float = true)
            (rows_of (sale_items_seq db) sid line_items)) as Hlines.
  { apply Forall_forall. intros r Hr.
    apply rows_of_elem in Hr as (_ & _ & li & Hli & _ & _ & _ & ->).
    destruct (Hchecked li Hli) as (Hq & Hp & Hmul & Hnum & _).
    rewrite leb_sqlite_real_r. rewrite Hmul in *. by apply mul_nonneg. }
  eexists _, _. split; [exact Hsales |]. split; [reflexivity |].
  split; [exact Hrows |]. split; [| exact Hlines].
  simpl. apply fold_add_nonneg; [| exact Htotal].
  apply Forall_forall. intros t Ht.
  apply list_elem_of_fmap in Ht as (r & -> & Hr).
  apply rows_of_elem in Hr as (_ & _ & li & Hli & _ & Hqty & Hprice & _).
  destruct (Hchecked li Hli) as (Hq & Hp & _).
  exists (quantity r), (unit_price r). split; [reflexivity |].
  by rewrite Hqty, Hprice, ltb_sqlite_real_r, leb_sqlite_real_r.
Qed.

Lemma recorded_amounts_are_nonnegative_witness :
  exists s rows,
    sales (snd sold_5_of_50) = sales (shop 50) ++ [s] /\ sales_id s = 1 /\
    sale_items (snd sold_5_of_50) = sale_items (shop 50) ++ rows /\
    (0 <=? total_amount s)%float = true /\
    Forall (fun r => (0 <=? line_total r)%float = true) rows.
Proof.
  apply (recorded_amounts_are_nonnegative (shop 50) (snd sold_5_of_50) noon 7
           (one_line 1 5 12.5) 1).
  vm_compute. reflexivity.
Defined.
